(** * M2Win32Helpers: the Win32 helper functions of the M2-Team common library

    A shallow embedding of [NSudoSDK/M2Win32Helpers.cpp].  Every helper is a
    short sequence of Win32 calls, so a helper is embedded as a finite tree
    of system calls ([Prog]); running a tree against an arbitrary operating
    system ([OS.Handler]) yields the returned value and the log of the calls
    that were issued, with their answers. *)

From Stdlib Require Import ZArith List Bool String Lia.
From ExtLib Require Import Structures.Monad.
Import ListNotations.
Import MonadNotation.

Local Open Scope Z_scope.
Local Open Scope monad_scope.

Set Implicit Arguments.

(** ** Machine integers

    Windows integer types are kept as [Z]; conversions between them are
    written out. *)

Definition DWORD := Z.
Definition UINT := Z.
Definition WORD := Z.
Definition BOOL := Z.
Definition BOOLEAN := Z.
Definition HRESULT := Z.
Definition ULONGLONG := Z.
Definition LARGE_INTEGER := Z.
Definition HANDLE := Z.
Definition HMODULE := Z.
Definition HRSRC := Z.
Definition HGLOBAL := Z.
Definition LPVOID := Z.
Definition LPCWSTR := string.
Definition WCHAR := Z.
Definition wstring := list WCHAR.

Definition TRUE : BOOL := 1.
Definition FALSE : BOOL := 0.
Definition nullptr : Z := 0.

(** Conversion to an unsigned 32-bit value. *)
Definition to_DWORD (x : Z) : DWORD := x mod 2 ^ 32.

(** The cast [(HRESULT)(x)]: a signed 32-bit value. *)
Definition to_HRESULT (x : Z) : HRESULT := (x + 2 ^ 31) mod 2 ^ 32 - 2 ^ 31.

(** The cast [static_cast<ULONGLONG>(x)]. *)
Definition to_ULONGLONG (x : Z) : ULONGLONG := x mod 2 ^ 64.

(** ** Constants of the Windows SDK headers (winnt.h, winerror.h, fileapi.h) *)

Definition FILE_SHARE_READ : DWORD := 0x00000001.
Definition FILE_SHARE_WRITE : DWORD := 0x00000002.
Definition FILE_SHARE_DELETE : DWORD := 0x00000004.

Definition FILE_ATTRIBUTE_READONLY : DWORD := 0x00000001.
Definition FILE_ATTRIBUTE_HIDDEN : DWORD := 0x00000002.
Definition FILE_ATTRIBUTE_SYSTEM : DWORD := 0x00000004.
Definition FILE_ATTRIBUTE_ARCHIVE : DWORD := 0x00000020.
Definition FILE_ATTRIBUTE_NORMAL : DWORD := 0x00000080.
Definition FILE_ATTRIBUTE_TEMPORARY : DWORD := 0x00000100.
Definition FILE_ATTRIBUTE_OFFLINE : DWORD := 0x00001000.
Definition FILE_ATTRIBUTE_NOT_CONTENT_INDEXED : DWORD := 0x00002000.
Definition FILE_ATTRIBUTE_NO_SCRUB_DATA : DWORD := 0x00020000.
Definition INVALID_FILE_ATTRIBUTES : DWORD := 0xFFFFFFFF.

Definition DELETE : DWORD := 0x00010000.
Definition SYNCHRONIZE : DWORD := 0x00100000.
Definition FILE_READ_ATTRIBUTES : DWORD := 0x0080.
Definition FILE_WRITE_ATTRIBUTES : DWORD := 0x0100.
Definition GENERIC_READ : DWORD := 0x80000000.
Definition OPEN_EXISTING : DWORD := 3.
Definition FILE_FLAG_BACKUP_SEMANTICS : DWORD := 0x02000000.
Definition FILE_FLAG_OPEN_REPARSE_POINT : DWORD := 0x00200000.
Definition INVALID_HANDLE_VALUE : HANDLE := -1.

Definition LANG_NEUTRAL : WORD := 0x00.
Definition SUBLANG_NEUTRAL : WORD := 0x00.
(** winnt.h: [((((WORD)(s)) << 10) | (WORD)(p))] *)
Definition MAKELANGID (p s : WORD) : WORD := Z.lor (Z.shiftl s 10) p mod 2 ^ 16.

Definition ERROR_SUCCESS : DWORD := 0.
Definition FACILITY_WIN32 : Z := 7.
Definition S_OK : HRESULT := 0.
Definition E_UNEXPECTED : HRESULT := to_HRESULT 0x8000FFFF.
Definition E_INVALIDARG : HRESULT := to_HRESULT 0x80070057.

Definition SUCCEEDED (hr : HRESULT) : bool := to_HRESULT hr >=? 0.
Definition FAILED (hr : HRESULT) : bool := to_HRESULT hr <? 0.

(** winerror.h:
    [(HRESULT)(x) <= 0 ? (HRESULT)(x)
       : (HRESULT)(((x) & 0x0000FFFF) | (FACILITY_WIN32 << 16) | 0x80000000)] *)
Definition __HRESULT_FROM_WIN32 (x : DWORD) : HRESULT :=
  if to_HRESULT x <=? 0 then to_HRESULT x
  else to_HRESULT
         (Z.lor (Z.lor (Z.land x 0x0000FFFF) (Z.shiftl FACILITY_WIN32 16))
                0x80000000).

(** ** File information structures *)

Inductive FILE_INFO_BY_HANDLE_CLASS : Type :=
| FileBasicInfo
| FileStandardInfo
| FileDispositionInfo.

Record FILE_BASIC_INFO : Type := {
  CreationTime : LARGE_INTEGER;
  LastAccessTime : LARGE_INTEGER;
  LastWriteTime : LARGE_INTEGER;
  ChangeTime : LARGE_INTEGER;
  FileAttributes : DWORD
}.

Record FILE_STANDARD_INFO : Type := {
  AllocationSize : LARGE_INTEGER;
  EndOfFile : LARGE_INTEGER;
  NumberOfLinks : DWORD;
  DeletePending : BOOLEAN;
  Directory : BOOLEAN
}.

Record FILE_DISPOSITION_INFO : Type := {
  DeleteFile : BOOLEAN
}.

(** The structure that goes with an information class. *)
Definition FILE_INFO (c : FILE_INFO_BY_HANDLE_CLASS) : Type :=
  match c with
  | FileBasicInfo => FILE_BASIC_INFO
  | FileStandardInfo => FILE_STANDARD_INFO
  | FileDispositionInfo => FILE_DISPOSITION_INFO
  end.

(** [sizeof] of the structure, as laid out by the Windows ABI. *)
Definition sizeof (c : FILE_INFO_BY_HANDLE_CLASS) : DWORD :=
  match c with
  | FileBasicInfo => 40
  | FileStandardInfo => 24
  | FileDispositionInfo => 1
  end.

(** The resource descriptor filled by [M2LoadResource] (declared in
    M2Win32Helpers.h): the fields the source assigns. *)
Record M2_RESOURCE_INFO : Type := {
  Size : DWORD;
  Pointer : LPVOID
}.

(** ** System calls *)

Module OS.

(** The Win32 entry points the helpers use, with their in-arguments.
    Arguments the source always passes as [nullptr] (security attributes,
    template file) are left out. *)
Inductive Call : Type :=
| SetLastError (dwErrCode : DWORD)
| GetLastError
| FindResourceExW (hModule : HMODULE) (lpType lpName : LPCWSTR)
                  (wLanguage : WORD)
| SizeofResource (hModule : HMODULE) (hResInfo : HRSRC)
| LoadResource (hModule : HMODULE) (hResInfo : HRSRC)
| LockResource (hResData : HGLOBAL)
| CreateFileW (lpFileName : LPCWSTR)
              (dwDesiredAccess dwShareMode : DWORD)
              (dwCreationDisposition dwFlagsAndAttributes : DWORD)
| GetFileInformationByHandleEx (hFile : HANDLE)
                               (cls : FILE_INFO_BY_HANDLE_CLASS)
                               (dwBufferSize : DWORD)
| SetFileInformationByHandle (hFile : HANDLE)
                             (cls : FILE_INFO_BY_HANDLE_CLASS)
                             (lpFileInformation : FILE_INFO cls)
                             (dwBufferSize : DWORD)
| CloseHandle (hObject : HANDLE)
| GetSystemWindowsDirectoryW (lpBuffer : option wstring) (uSize : UINT).

(** What a call hands back: its return value and, where it has one, the
    content it stores through its out-pointer. *)
Definition Resp (c : Call) : Type :=
  match c with
  | SetLastError _ => unit
  | GetLastError => DWORD
  | FindResourceExW _ _ _ _ => HRSRC
  | SizeofResource _ _ => DWORD
  | LoadResource _ _ => HGLOBAL
  | LockResource _ => LPVOID
  | CreateFileW _ _ _ _ _ => HANDLE
  | GetFileInformationByHandleEx _ cls _ => (BOOL * FILE_INFO cls)%type
  | SetFileInformationByHandle _ _ _ _ => BOOL
  | CloseHandle _ => BOOL
  | GetSystemWindowsDirectoryW _ _ => (UINT * wstring)%type
  end.

(** A call together with its answer, as it appears in a log. *)
Definition Event : Type := sigT Resp.

(** An operating system: it answers every call and moves to a new state
    of the world. *)
Definition Handler (World : Type) : Type :=
  forall c : Call, World -> Resp c * World.

(** The answer reports failure, in the way the call's documentation
    defines it. *)
Definition failed (c : Call) : Resp c -> bool :=
  match c as c0 return Resp c0 -> bool with
  | SetLastError _ => fun _ => false
  | GetLastError => fun _ => false
  | FindResourceExW _ _ _ _ => fun r => nullptr =? r
  | SizeofResource _ _ => fun r => 0 =? r
  | LoadResource _ _ => fun r => nullptr =? r
  | LockResource _ => fun r => nullptr =? r
  | CreateFileW _ _ _ _ _ => fun r => INVALID_HANDLE_VALUE =? r
  | GetFileInformationByHandleEx _ _ _ => fun r => fst r =? 0
  | SetFileInformationByHandle _ _ _ _ => fun r => r =? 0
  | CloseHandle _ => fun r => r =? 0
  | GetSystemWindowsDirectoryW _ _ => fun r => 0 =? fst r
  end.

(** The Win32 convention "if the function fails, call GetLastError for
    the error": right after a failing call the thread's last-error value
    is an error code, a non-zero DWORD. *)
Definition sets_last_error {World : Type} (os : Handler World) : Prop :=
  forall (c : Call) (w : World),
    failed c (fst (os c w)) = true ->
    0 < fst (os GetLastError (snd (os c w))) < 2 ^ 32.

End OS.

Notation "c '~>' r" := (existT OS.Resp c r) (at level 60, no associativity).

(** ** Programs over system calls *)

Inductive Prog (A : Type) : Type :=
| Ret (a : A)
| Vis (c : OS.Call) (k : OS.Resp c -> Prog A).

Arguments Ret {A} a.
Arguments Vis {A} c k.

Fixpoint bindProg {A B : Type} (p : Prog A) (f : A -> Prog B) : Prog B :=
  match p with
  | Ret a => f a
  | Vis c k => Vis c (fun r => bindProg (k r) f)
  end.

#[export] Instance Monad_Prog : Monad Prog :=
  {| ret := @Ret; bind := @bindProg |}.

Definition call (c : OS.Call) : Prog (OS.Resp c) := Vis c (fun r => Ret r).

(** What a run leaves behind. *)
Record Outcome (World A : Type) : Type := {
  result : A;
  world : World;
  trace : list OS.Event
}.

Fixpoint run {World A : Type} (os : OS.Handler World) (p : Prog A)
         (w : World) : Outcome World A :=
  match p with
  | Ret a => {| result := a; world := w; trace := [] |}
  | Vis c k =>
      let rw := os c w in
      let o := run os (k (fst rw)) (snd rw) in
      {| result := result o; world := world o;
         trace := (c ~> fst rw) :: trace o |}
  end.

(** ** The system calls as program steps *)

Definition SetLastError (dwErrCode : DWORD) : Prog unit :=
  call (OS.SetLastError dwErrCode).

Definition GetLastError : Prog DWORD := call OS.GetLastError.

Definition FindResourceExW (hModule : HMODULE) (lpType lpName : LPCWSTR)
           (wLanguage : WORD) : Prog HRSRC :=
  call (OS.FindResourceExW hModule lpType lpName wLanguage).

Definition SizeofResource (hModule : HMODULE) (hResInfo : HRSRC) : Prog DWORD :=
  call (OS.SizeofResource hModule hResInfo).

Definition LoadResource (hModule : HMODULE) (hResInfo : HRSRC) : Prog HGLOBAL :=
  call (OS.LoadResource hModule hResInfo).

Definition LockResource (hResData : HGLOBAL) : Prog LPVOID :=
  call (OS.LockResource hResData).

Definition CreateFileW (lpFileName : LPCWSTR)
           (dwDesiredAccess dwShareMode : DWORD)
           (dwCreationDisposition dwFlagsAndAttributes : DWORD) : Prog HANDLE :=
  call (OS.CreateFileW lpFileName dwDesiredAccess dwShareMode
                       dwCreationDisposition dwFlagsAndAttributes).

Definition GetFileInformationByHandleEx (hFile : HANDLE)
           (cls : FILE_INFO_BY_HANDLE_CLASS) (dwBufferSize : DWORD)
  : Prog (BOOL * FILE_INFO cls) :=
  call (OS.GetFileInformationByHandleEx hFile cls dwBufferSize).

Definition SetFileInformationByHandle (hFile : HANDLE)
           (cls : FILE_INFO_BY_HANDLE_CLASS) (lpFileInformation : FILE_INFO cls)
           (dwBufferSize : DWORD) : Prog BOOL :=
  call (OS.SetFileInformationByHandle hFile cls lpFileInformation dwBufferSize).

Definition CloseHandle (hObject : HANDLE) : Prog BOOL :=
  call (OS.CloseHandle hObject).

Definition GetSystemWindowsDirectoryW (lpBuffer : option wstring)
           (uSize : UINT) : Prog (UINT * wstring) :=
  call (OS.GetSystemWindowsDirectoryW lpBuffer uSize).

(** Modelled from the spec: [M2GetLastError] is called by
    M2Win32Helpers.cpp and defined elsewhere in the library.  The
    specification describes its result as the platform's last-error code
    translated into the uniform result code, the translation
    [M2LoadResource] writes as [__HRESULT_FROM_WIN32]; the model reads the
    last-error value once. *)
Definition M2GetLastError : Prog HRESULT :=
  e <- GetLastError ;;
  ret (__HRESULT_FROM_WIN32 e).

(** ** std::wstring operations used by [M2GetWindowsDirectory] *)

(** [s.resize(n)]: truncate, or pad with [L'\0']. *)
Definition resize (s : wstring) (n : nat) : wstring :=
  (firstn n s ++ repeat 0 (n - List.length s))%list.

(** The characters a system call wrote through [&s[0]]: they overwrite the
    front of the storage, the size of the string does not change. *)
Definition stored (s written : wstring) : wstring :=
  firstn (List.length s) (written ++ skipn (List.length written) s)%list.

(** ** The helpers *)

(** Out-parameters are passed as the pointee's content on entry and come
    back next to the returned HRESULT; a pointer that may be null is an
    [option]. *)

(** The macro [__HRESULT_FROM_WIN32(x)] of winerror.h applied to an
    argument with effects: the argument is written once in the test and
    once in each branch, so it is evaluated twice, first for the test and
    then in the branch taken. *)
Definition __HRESULT_FROM_WIN32_of (x : Prog DWORD) : Prog HRESULT :=
  tested <- x ;;
  if to_HRESULT tested <=? 0 then
    encoded <- x ;;
    ret (to_HRESULT encoded)
  else
    encoded <- x ;;
    ret (to_HRESULT
           (Z.lor (Z.lor (Z.land encoded 0x0000FFFF)
                         (Z.shiftl FACILITY_WIN32 16))
                  0x80000000)).

(** [M2LoadResource], lines 35-63.  Line 62 hands the call
    [GetLastError()] to the macro, which therefore reads the last-error
    value twice. *)
Definition M2LoadResource (lpResourceInfo : option M2_RESOURCE_INFO)
           (hModule : HMODULE) (lpType lpName : LPCWSTR)
  : Prog (HRESULT * option M2_RESOURCE_INFO) :=
  match lpResourceInfo with
  | None => ret (E_INVALIDARG, None)
  | Some info =>
      SetLastError ERROR_SUCCESS ;;
      let info := {| Size := 0; Pointer := Pointer info |} in
      let info := {| Size := Size info; Pointer := nullptr |} in
      ResourceFind <- FindResourceExW hModule lpType lpName
                        (MAKELANGID LANG_NEUTRAL SUBLANG_NEUTRAL) ;;
      info <- (if negb (nullptr =? ResourceFind) then
                 sz <- SizeofResource hModule ResourceFind ;;
                 let info := {| Size := sz; Pointer := Pointer info |} in
                 ResourceLoad <- LoadResource hModule ResourceFind ;;
                 if negb (nullptr =? ResourceLoad) then
                   p <- LockResource ResourceLoad ;;
                   ret {| Size := Size info; Pointer := p |}
                 else ret info
               else ret info) ;;
      hr <- __HRESULT_FROM_WIN32_of GetLastError ;;
      ret (hr, Some info)
  end.

(** [M2GetFileAttributes], lines 76-88. *)
Definition M2GetFileAttributes (hFile : HANDLE) : Prog DWORD :=
  r <- GetFileInformationByHandleEx hFile FileBasicInfo
         (sizeof FileBasicInfo) ;;
  let '(ret_, BasicInfo) := r in
  ret (if negb (ret_ =? 0) then FileAttributes BasicInfo
       else INVALID_FILE_ATTRIBUTES).

(** The value [M2SetFileAttributes] stores in [BasicInfo.FileAttributes],
    lines 108-118; [&] binds tighter than [|]. *)
Definition M2SetFileAttributes_value (dwFileAttributes : DWORD) : DWORD :=
  Z.lor
    (Z.land dwFileAttributes
       (Z.lor FILE_SHARE_READ
       (Z.lor FILE_SHARE_WRITE
       (Z.lor FILE_SHARE_DELETE
       (Z.lor FILE_ATTRIBUTE_ARCHIVE
       (Z.lor FILE_ATTRIBUTE_TEMPORARY
       (Z.lor FILE_ATTRIBUTE_OFFLINE
       (Z.lor FILE_ATTRIBUTE_NOT_CONTENT_INDEXED
              FILE_ATTRIBUTE_NO_SCRUB_DATA))))))))
    FILE_ATTRIBUTE_NORMAL.

(** [M2SetFileAttributes], lines 103-127. *)
Definition M2SetFileAttributes (hFile : HANDLE) (dwFileAttributes : DWORD)
  : Prog HRESULT :=
  let BasicInfo :=
    {| CreationTime := 0; LastAccessTime := 0; LastWriteTime := 0;
       ChangeTime := 0; FileAttributes := 0 |} in
  let BasicInfo :=
    {| CreationTime := CreationTime BasicInfo;
       LastAccessTime := LastAccessTime BasicInfo;
       LastWriteTime := LastWriteTime BasicInfo;
       ChangeTime := ChangeTime BasicInfo;
       FileAttributes := M2SetFileAttributes_value dwFileAttributes |} in
  ret_ <- SetFileInformationByHandle hFile FileBasicInfo BasicInfo
            (sizeof FileBasicInfo) ;;
  if negb (ret_ =? 0) then ret S_OK else M2GetLastError.

(** [M2DeleteFile], lines 141-196.  The label [Cleanup] is the code after
    the conditional; the open-failure branch jumps to it. *)
Definition M2DeleteFile (lpFileName : LPCWSTR)
           (bForceDeleteReadOnlyFile : bool) : Prog HRESULT :=
  let hr := S_OK in
  (* Open the file. *)
  hFile <- CreateFileW lpFileName
             (Z.lor SYNCHRONIZE (Z.lor DELETE
                (Z.lor FILE_READ_ATTRIBUTES FILE_WRITE_ATTRIBUTES)))
             (Z.lor FILE_SHARE_READ (Z.lor FILE_SHARE_WRITE FILE_SHARE_DELETE))
             OPEN_EXISTING
             (Z.lor FILE_FLAG_BACKUP_SEMANTICS FILE_FLAG_OPEN_REPARSE_POINT) ;;
  hr <- (if INVALID_HANDLE_VALUE =? hFile then
           (* goto Cleanup *)
           M2GetLastError
         else
           let DispostionInfo := {| DeleteFile := TRUE |} in
           let OldAttribute := 0 in
           OldAttribute <-
             (if bForceDeleteReadOnlyFile then
                (* Save old attributes. *)
                OldAttribute <- M2GetFileAttributes hFile ;;
                (* Remove readonly attribute. *)
                M2SetFileAttributes hFile
                  (Z.land OldAttribute
                     (to_DWORD (Z.lxor (-1) FILE_ATTRIBUTE_READONLY))) ;;
                ret OldAttribute
              else ret OldAttribute) ;;
           (* Delete the file. *)
           ok <- SetFileInformationByHandle hFile FileDispositionInfo
                   DispostionInfo (sizeof FileDispositionInfo) ;;
           hr <- (if ok =? 0 then M2GetLastError else ret hr) ;;
           (* Restore attributes if failed. *)
           (if negb (Z.land (Z.b2z bForceDeleteReadOnlyFile)
                            (Z.b2z (negb (SUCCEEDED hr))) =? 0)
            then M2SetFileAttributes hFile OldAttribute ;; ret tt
            else ret tt) ;;
           ret hr) ;;
  (* Cleanup: *)
  CloseHandle hFile ;;
  ret hr.

(** [M2GetFileAllocationSize], lines 211-253, and [M2GetFileSize], lines
    267-309: the same body twice, as in the source. *)

Definition M2GetFileAllocationSize (lpFileName : LPCWSTR)
           (lpAllocationSize : ULONGLONG) : Prog (HRESULT * ULONGLONG) :=
  let lpAllocationSize := 0 in
  let hr := S_OK in
  (* Open the file. *)
  hFile <- CreateFileW lpFileName
             (Z.lor GENERIC_READ SYNCHRONIZE)
             FILE_SHARE_READ
             OPEN_EXISTING
             (Z.lor FILE_FLAG_BACKUP_SEMANTICS FILE_FLAG_OPEN_REPARSE_POINT) ;;
  out <- (if INVALID_HANDLE_VALUE =? hFile then
            hr <- M2GetLastError ;;
            ret (hr, lpAllocationSize)
          else
            r <- GetFileInformationByHandleEx hFile FileStandardInfo
                   (sizeof FileStandardInfo) ;;
            let '(ok, StandardInfo) := r in
            if ok =? 0 then
              hr <- M2GetLastError ;;
              ret (hr, lpAllocationSize)
            else
              ret (hr, to_ULONGLONG (AllocationSize StandardInfo))) ;;
  (* Cleanup: *)
  CloseHandle hFile ;;
  ret out.

Definition M2GetFileSize (lpFileName : LPCWSTR)
           (lpFileSize : ULONGLONG) : Prog (HRESULT * ULONGLONG) :=
  let lpFileSize := 0 in
  let hr := S_OK in
  (* Open the file. *)
  hFile <- CreateFileW lpFileName
             (Z.lor GENERIC_READ SYNCHRONIZE)
             FILE_SHARE_READ
             OPEN_EXISTING
             (Z.lor FILE_FLAG_BACKUP_SEMANTICS FILE_FLAG_OPEN_REPARSE_POINT) ;;
  out <- (if INVALID_HANDLE_VALUE =? hFile then
            hr <- M2GetLastError ;;
            ret (hr, lpFileSize)
          else
            r <- GetFileInformationByHandleEx hFile FileStandardInfo
                   (sizeof FileStandardInfo) ;;
            let '(ok, StandardInfo) := r in
            if ok =? 0 then
              hr <- M2GetLastError ;;
              ret (hr, lpFileSize)
            else
              ret (hr, to_ULONGLONG (EndOfFile StandardInfo))) ;;
  (* Cleanup: *)
  CloseHandle hFile ;;
  ret out.

(** [M2GetWindowsDirectory], lines 318-358.  The [do ... while (false)]
    block with its [break]s is the inner computation; the test of
    [FAILED(hr)] follows it. *)
Definition M2GetWindowsDirectory (WindowsFolderPath : wstring)
  : Prog (HRESULT * wstring) :=
  let hr := S_OK in
  out <- (r <- GetSystemWindowsDirectoryW None 0 ;;
          let Length := fst r in
          if 0 =? Length then
            hr <- M2GetLastError ;;
            ret (hr, WindowsFolderPath)
          else
            let WindowsFolderPath :=
              resize WindowsFolderPath (Z.to_nat (to_DWORD (Length - 1))) in
            r <- GetSystemWindowsDirectoryW (Some WindowsFolderPath)
                   (to_DWORD Length) ;;
            let Length := fst r in
            let WindowsFolderPath := stored WindowsFolderPath (snd r) in
            if 0 =? Length then
              hr <- M2GetLastError ;;
              ret (hr, WindowsFolderPath)
            else if negb (Z.of_nat (List.length WindowsFolderPath)
                          =? Length) then
              ret (E_UNEXPECTED, WindowsFolderPath)
            else
              ret (hr, WindowsFolderPath)) ;;
  let '(hr, WindowsFolderPath) := out in
  if FAILED hr then ret (hr, []) else ret (hr, WindowsFolderPath).

(** ** Reading a log *)

Definition is_open (e : OS.Event) : bool :=
  match projT1 e with
  | OS.CreateFileW _ _ _ _ _ => true
  | _ => false
  end.

Definition is_close (e : OS.Event) : bool :=
  match projT1 e with
  | OS.CloseHandle _ => true
  | _ => false
  end.

Definition is_attribute_read (e : OS.Event) : bool :=
  match projT1 e with
  | OS.GetFileInformationByHandleEx _ FileBasicInfo _ => true
  | _ => false
  end.

Definition is_attribute_write (e : OS.Event) : bool :=
  match projT1 e with
  | OS.SetFileInformationByHandle _ FileBasicInfo _ _ => true
  | _ => false
  end.

Definition is_disposition (e : OS.Event) : bool :=
  match projT1 e with
  | OS.SetFileInformationByHandle _ FileDispositionInfo _ _ => true
  | _ => false
  end.

(** The logged answer reports failure. *)
Definition event_failed (e : OS.Event) : bool :=
  OS.failed (projT1 e) (projT2 e).

(** The attribute set an attribute write carries. *)
Definition written_attributes (e : OS.Event) : option DWORD :=
  match projT1 e with
  | OS.SetFileInformationByHandle _ cls info _ =>
      match cls as c return FILE_INFO c -> option DWORD with
      | FileBasicInfo => fun i => Some (FileAttributes i)
      | _ => fun _ => None
      end info
  | _ => None
  end.

(** The first answer of a kind, in the order of the log. *)
Fixpoint pick {A : Type} (f : OS.Event -> option A) (t : list OS.Event)
  : option A :=
  match t with
  | [] => None
  | e :: t' => match f e with
               | Some a => Some a
               | None => pick f t'
               end
  end.

Definition is_last_error (e : OS.Event) : bool :=
  match projT1 e with
  | OS.GetLastError => true
  | _ => false
  end.

(** The value a [GetLastError] call returned. *)
Definition last_error_read (e : OS.Event) : option DWORD :=
  match e with
  | existT _ c r =>
      match c as c0 return OS.Resp c0 -> option DWORD with
      | OS.GetLastError => fun x => Some x
      | _ => fun _ => None
      end r
  end.

(** The handle a [CreateFileW] call returned. *)
Definition opened_handle (e : OS.Event) : option HANDLE :=
  match e with
  | existT _ c r =>
      match c as c0 return OS.Resp c0 -> option HANDLE with
      | OS.CreateFileW _ _ _ _ _ => fun h => Some h
      | _ => fun _ => None
      end r
  end.

(** The handle a [CloseHandle] call released. *)
Definition closed_handle (e : OS.Event) : option HANDLE :=
  match projT1 e with
  | OS.CloseHandle h => Some h
  | _ => None
  end.

(** What [M2GetFileAttributes] makes of an attribute read: the attribute
    set, or [INVALID_FILE_ATTRIBUTES] when the read failed. *)
Definition read_attributes (e : OS.Event) : option DWORD :=
  match e with
  | existT _ c r =>
      match c as c0 return OS.Resp c0 -> option DWORD with
      | OS.GetFileInformationByHandleEx _ cls _ =>
          match cls as k return BOOL * FILE_INFO k -> option DWORD with
          | FileBasicInfo => fun x =>
              Some (if negb (fst x =? 0) then FileAttributes (snd x)
                    else INVALID_FILE_ATTRIBUTES)
          | _ => fun _ => None
          end
      | _ => fun _ => None
      end r
  end.

(** The structure a successful [FileStandardInfo] query filled. *)
Definition queried_standard_info (e : OS.Event) : option FILE_STANDARD_INFO :=
  match e with
  | existT _ c r =>
      match c as c0 return OS.Resp c0 -> option FILE_STANDARD_INFO with
      | OS.GetFileInformationByHandleEx _ cls _ =>
          match cls as k
                return BOOL * FILE_INFO k -> option FILE_STANDARD_INFO with
          | FileStandardInfo => fun x =>
              if fst x =? 0 then None else Some (snd x)
          | _ => fun _ => None
          end
      | _ => fun _ => None
      end r
  end.

Definition is_standard_query (e : OS.Event) : bool :=
  match projT1 e with
  | OS.GetFileInformationByHandleEx _ FileStandardInfo _ => true
  | _ => false
  end.

(** The calls issued after the delete-disposition call. *)
Fixpoint after_disposition (t : list OS.Event) : list OS.Event :=
  match t with
  | [] => []
  | e :: t' => if is_disposition e then t' else after_disposition t'
  end.

(** The calls issued up to the delete-disposition call. *)
Fixpoint before_disposition (t : list OS.Event) : list OS.Event :=
  match t with
  | [] => []
  | e :: t' => if is_disposition e then [] else e :: before_disposition t'
  end.

Definition open_failed (t : list OS.Event) : bool :=
  existsb (fun e => is_open e && event_failed e) t.

Definition disposition_failed (t : list OS.Event) : bool :=
  existsb (fun e => is_disposition e && event_failed e) t.

(** Attribute writes of the unprotect step and of the restore step. *)
Definition unprotect_writes (t : list OS.Event) : list OS.Event :=
  filter is_attribute_write (before_disposition t).

Definition restore_writes (t : list OS.Event) : list OS.Event :=
  filter is_attribute_write (after_disposition t).

(** ** A small operating system to run the helpers on

    One file, one embedded resource and the Windows directory; enough to
    replay the scenarios of the specification. *)

Module Sim.

Record World : Type := {
  present : bool;           (* the path names an existing file *)
  attributes : DWORD;       (* its attribute set *)
  in_use : bool;            (* a mapped image keeps it from being deleted *)
  frozen : bool;            (* attribute changes are refused *)
  delete_pending : bool;
  end_of_file : LARGE_INTEGER;
  allocation : LARGE_INTEGER;
  resource_size : option DWORD;  (* the resource of the module, if any *)
  resource_loadable : bool;
  windir : wstring;
  last_error : DWORD
}.

Definition ERROR_FILE_NOT_FOUND : DWORD := 2.
Definition ERROR_ACCESS_DENIED : DWORD := 5.
Definition ERROR_INVALID_HANDLE : DWORD := 6.
Definition ERROR_INVALID_PARAMETER : DWORD := 87.
Definition ERROR_RESOURCE_DATA_NOT_FOUND : DWORD := 1812.
Definition ERROR_RESOURCE_NAME_NOT_FOUND : DWORD := 1814.

Definition the_handle : HANDLE := 0x2c.
Definition the_resource : HRSRC := 0x405000.
Definition the_data : HGLOBAL := 0x405040.

Definition set_error (e : DWORD) (w : World) : World :=
  {| present := present w; attributes := attributes w; in_use := in_use w;
     frozen := frozen w; delete_pending := delete_pending w;
     end_of_file := end_of_file w; allocation := allocation w;
     resource_size := resource_size w;
     resource_loadable := resource_loadable w; windir := windir w;
     last_error := e |}.

Definition set_attributes (a : DWORD) (w : World) : World :=
  {| present := present w; attributes := a; in_use := in_use w;
     frozen := frozen w; delete_pending := delete_pending w;
     end_of_file := end_of_file w; allocation := allocation w;
     resource_size := resource_size w;
     resource_loadable := resource_loadable w; windir := windir w;
     last_error := last_error w |}.

Definition set_delete_pending (b : bool) (w : World) : World :=
  {| present := present w; attributes := attributes w; in_use := in_use w;
     frozen := frozen w; delete_pending := b;
     end_of_file := end_of_file w; allocation := allocation w;
     resource_size := resource_size w;
     resource_loadable := resource_loadable w; windir := windir w;
     last_error := last_error w |}.

(** Closing the last handle of a file marked for deletion removes it. *)
Definition unlink (w : World) : World :=
  {| present := false; attributes := attributes w; in_use := in_use w;
     frozen := frozen w; delete_pending := false;
     end_of_file := end_of_file w; allocation := allocation w;
     resource_size := resource_size w;
     resource_loadable := resource_loadable w; windir := windir w;
     last_error := last_error w |}.

Definition no_basic_info : FILE_BASIC_INFO :=
  {| CreationTime := 0; LastAccessTime := 0; LastWriteTime := 0;
     ChangeTime := 0; FileAttributes := 0 |}.

Definition no_standard_info : FILE_STANDARD_INFO :=
  {| AllocationSize := 0; EndOfFile := 0; NumberOfLinks := 0;
     DeletePending := 0; Directory := 0 |}.

Definition no_info (cls : FILE_INFO_BY_HANDLE_CLASS) : FILE_INFO cls :=
  match cls with
  | FileBasicInfo => no_basic_info
  | FileStandardInfo => no_standard_info
  | FileDispositionInfo => {| DeleteFile := 0 |}
  end.

Definition query (cls : FILE_INFO_BY_HANDLE_CLASS) (w : World)
  : (BOOL * FILE_INFO cls) * World :=
  match cls with
  | FileBasicInfo =>
      ((TRUE, {| CreationTime := 0; LastAccessTime := 0; LastWriteTime := 0;
                 ChangeTime := 0; FileAttributes := attributes w |}), w)
  | FileStandardInfo =>
      ((TRUE, {| AllocationSize := allocation w;
                 EndOfFile := end_of_file w; NumberOfLinks := 1;
                 DeletePending := Z.b2z (delete_pending w);
                 Directory := 0 |}), w)
  | FileDispositionInfo =>
      ((FALSE, {| DeleteFile := 0 |}), set_error ERROR_INVALID_PARAMETER w)
  end.

Definition update (cls : FILE_INFO_BY_HANDLE_CLASS)
  : FILE_INFO cls -> World -> BOOL * World :=
  match cls with
  | FileBasicInfo => fun info w =>
      let a := FileAttributes info in
      if frozen w then (FALSE, set_error ERROR_ACCESS_DENIED w)
      else (TRUE, set_attributes
                    (if a =? FILE_ATTRIBUTE_NORMAL then a
                     else Z.ldiff a FILE_ATTRIBUTE_NORMAL) w)
  | FileStandardInfo => fun _ w =>
      (FALSE, set_error ERROR_INVALID_PARAMETER w)
  | FileDispositionInfo => fun info w =>
      if Z.testbit (attributes w) 0 then
        (FALSE, set_error ERROR_ACCESS_DENIED w)
      else if in_use w then
        (FALSE, set_error ERROR_ACCESS_DENIED w)
      else
        (TRUE, set_delete_pending (negb (DeleteFile info =? 0)) w)
  end.

Definition os : OS.Handler World :=
  fun c =>
    match c as c0 return World -> OS.Resp c0 * World with
    | OS.SetLastError e => fun w => (tt, set_error (to_DWORD e) w)
    | OS.GetLastError => fun w => (last_error w, w)
    | OS.FindResourceExW _ _ _ _ => fun w =>
        match resource_size w with
        | Some _ => (the_resource, w)
        | None => (nullptr, set_error ERROR_RESOURCE_NAME_NOT_FOUND w)
        end
    | OS.SizeofResource _ r => fun w =>
        match resource_size w with
        | Some n =>
            if (r =? the_resource) && negb (n =? 0) then (n, w)
            else (0, set_error ERROR_INVALID_PARAMETER w)
        | None => (0, set_error ERROR_INVALID_PARAMETER w)
        end
    | OS.LoadResource _ r => fun w =>
        if (r =? the_resource) && resource_loadable w then (the_data, w)
        else (nullptr, set_error ERROR_RESOURCE_DATA_NOT_FOUND w)
    | OS.LockResource d => fun w =>
        if d =? the_data then (the_data, w)
        else (nullptr, set_error ERROR_INVALID_HANDLE w)
    | OS.CreateFileW _ _ _ _ _ => fun w =>
        if present w then (the_handle, w)
        else (INVALID_HANDLE_VALUE, set_error ERROR_FILE_NOT_FOUND w)
    | OS.GetFileInformationByHandleEx h cls _ => fun w =>
        if h =? the_handle then query cls w
        else ((FALSE, no_info cls), set_error ERROR_INVALID_HANDLE w)
    | OS.SetFileInformationByHandle h cls info _ => fun w =>
        if h =? the_handle then update cls info w
        else (FALSE, set_error ERROR_INVALID_HANDLE w)
    | OS.CloseHandle h => fun w =>
        if h =? the_handle then
          (TRUE, if delete_pending w then unlink w else w)
        else (FALSE, set_error ERROR_INVALID_HANDLE w)
    | OS.GetSystemWindowsDirectoryW buf n => fun w =>
        let len := Z.of_nat (List.length (windir w)) in
        match buf with
        | Some _ =>
            if len =? 0 then ((0, []), set_error ERROR_FILE_NOT_FOUND w)
            else if len <? n then ((len, (windir w ++ [0])%list), w)
            else ((len + 1, []), w)
        | None => ((len + 1, []), w)
        end
    end.

(** A read-only file of 5000 bytes, a resource of 1234 bytes, and
    [C:\\WINDOWS]. *)
Definition w0 : World :=
  {| present := true;
     attributes := Z.lor FILE_ATTRIBUTE_READONLY FILE_ATTRIBUTE_ARCHIVE;
     in_use := false; frozen := false; delete_pending := false;
     end_of_file := 5000; allocation := 8192;
     resource_size := Some 1234; resource_loadable := true;
     windir := [67; 58; 92; 87; 73; 78; 68; 79; 87; 83];
     last_error := 0 |}.

(** Nothing there: no file, no resource, no Windows directory. *)
Definition w_missing : World :=
  {| present := false; attributes := 0; in_use := false; frozen := false;
     delete_pending := false; end_of_file := 0; allocation := 0;
     resource_size := None; resource_loadable := false;
     windir := []; last_error := 0 |}.

(** The file is mapped by a running image and the resource data cannot
    be loaded. *)
Definition w_in_use : World :=
  {| present := true;
     attributes := Z.lor FILE_ATTRIBUTE_READONLY FILE_ATTRIBUTE_ARCHIVE;
     in_use := true; frozen := false; delete_pending := false;
     end_of_file := 5000; allocation := 8192;
     resource_size := Some 1234; resource_loadable := false;
     windir := [67; 58; 92; 87; 73; 78; 68; 79; 87; 83];
     last_error := 0 |}.

(** As [w_in_use], and attribute changes are refused as well. *)
Definition w_frozen : World :=
  {| present := true;
     attributes := Z.lor FILE_ATTRIBUTE_READONLY FILE_ATTRIBUTE_ARCHIVE;
     in_use := true; frozen := true; delete_pending := false;
     end_of_file := 5000; allocation := 8192;
     resource_size := Some 1234; resource_loadable := false;
     windir := [67; 58; 92; 87; 73; 78; 68; 79; 87; 83];
     last_error := 0 |}.

End Sim.

(** All the answers of a kind, in the order of the log. *)
Fixpoint collect {A : Type} (f : OS.Event -> option A) (t : list OS.Event)
  : list A :=
  match t with
  | [] => []
  | e :: t' => match f e with
               | Some a => a :: collect f t'
               | None => collect f t'
               end
  end.

(** ** What the specification says, in terms of logs *)

(** The primary actions of [M2DeleteFile] are the open and the
    delete-disposition call.  The outcome a log shows for the
    delete-disposition call: [S_OK] when the call is there and succeeded,
    the translation of the last-error value read by the very next call
    when it failed; none when the log has no such call, or has no error
    look-up right after the failed one. *)
Fixpoint disposition_outcome (t : list OS.Event) : option HRESULT :=
  match t with
  | [] => None
  | e :: t' =>
      if is_disposition e then
        if event_failed e then
          match t' with
          | e' :: _ => option_map __HRESULT_FROM_WIN32 (last_error_read e')
          | [] => None
          end
        else Some S_OK
      else disposition_outcome t'
  end.

(** The outcome a log shows for the primary action: the log has to start
    with the open; when the open failed, the outcome is the translation of
    the last-error value read by the very next call; when it succeeded,
    the outcome is that of the delete-disposition call. *)
Definition primary_outcome (t : list OS.Event) : option HRESULT :=
  match t with
  | [] => None
  | e :: t' =>
      if is_open e then
        if event_failed e then
          match t' with
          | e' :: _ => option_map __HRESULT_FROM_WIN32 (last_error_read e')
          | [] => None
          end
        else disposition_outcome t'
      else None
  end.

(** The log without its compensating steps: attribute reads, attribute
    writes, and the error look-up that follows a failed attribute write,
    are taken out together with their answers. *)
Fixpoint primary_part (t : list OS.Event) : list OS.Event :=
  match t with
  | [] => []
  | e :: t' =>
      if is_attribute_read e then primary_part t'
      else if is_attribute_write e then
        match t' with
        | e' :: t'' =>
            if event_failed e && is_last_error e' then primary_part t''
            else primary_part t'
        | [] => []
        end
      else e :: primary_part t'
  end.

(** The attribute flags the specification lists as recognized by the
    set-attributes operation: read-only, hidden, archive, temporary,
    offline, not-content-indexed, no-scrub-data. *)
Definition recognized_by_spec : DWORD :=
  Z.lor FILE_ATTRIBUTE_READONLY
 (Z.lor FILE_ATTRIBUTE_HIDDEN
 (Z.lor FILE_ATTRIBUTE_ARCHIVE
 (Z.lor FILE_ATTRIBUTE_TEMPORARY
 (Z.lor FILE_ATTRIBUTE_OFFLINE
 (Z.lor FILE_ATTRIBUTE_NOT_CONTENT_INDEXED
        FILE_ATTRIBUTE_NO_SCRUB_DATA))))).

(** The value the specification says is applied. *)
Definition applied_by_spec (dwFileAttributes : DWORD) : DWORD :=
  Z.lor (Z.land dwFileAttributes recognized_by_spec) FILE_ATTRIBUTE_NORMAL.

(** The same list with the system flag added. *)
Definition recognized_attributes : DWORD :=
  Z.lor recognized_by_spec FILE_ATTRIBUTE_SYSTEM.

(** The attribute sets carried by the attribute writes of a log. *)
Definition applied_attributes (t : list OS.Event) : list (option DWORD) :=
  map written_attributes (filter is_attribute_write t).

Definition query_failed (t : list OS.Event) : bool :=
  existsb (fun e => is_standard_query e && event_failed e) t.

(** Logs of [M2GetWindowsDirectory]. *)

Definition is_directory_query (e : OS.Event) : bool :=
  match projT1 e with
  | OS.GetSystemWindowsDirectoryW _ _ => true
  | _ => false
  end.

Definition directory_query_failed (t : list OS.Event) : bool :=
  existsb (fun e => is_directory_query e && event_failed e) t.

(** The filling call: the size of the string it was given and the length
    it returned. *)
Definition filled (e : OS.Event) : option (nat * UINT) :=
  match e with
  | existT _ c r =>
      match c as c0 return OS.Resp c0 -> option (nat * UINT) with
      | OS.GetSystemWindowsDirectoryW (Some buffer) _ => fun x =>
          Some (List.length buffer, fst x)
      | _ => fun _ => None
      end r
  end.

(** The length returned by the filling call differs from the size of the
    string. *)
Definition size_mismatch (t : list OS.Event) : bool :=
  match pick filled t with
  | Some (size, len) => negb (Z.of_nat size =? len)
  | None => false
  end.

(** Logs of [M2LoadResource]. *)

Definition is_find (e : OS.Event) : bool :=
  match projT1 e with
  | OS.FindResourceExW _ _ _ _ => true
  | _ => false
  end.

Definition is_load (e : OS.Event) : bool :=
  match projT1 e with
  | OS.LoadResource _ _ => true
  | _ => false
  end.

Definition resource_found (t : list OS.Event) : bool :=
  existsb (fun e => is_find e && negb (event_failed e)) t.

Definition load_failed (t : list OS.Event) : bool :=
  existsb (fun e => is_load e && event_failed e) t.

(** The size [SizeofResource] returned. *)
Definition resource_size_answer (e : OS.Event) : option DWORD :=
  match e with
  | existT _ c r =>
      match c as c0 return OS.Resp c0 -> option DWORD with
      | OS.SizeofResource _ _ => fun x => Some x
      | _ => fun _ => None
      end r
  end.

(** ** More ways to read a log *)

(** The kind of step a logged call is. *)
Inductive Step : Type :=
| OpenStep
| AttributeReadStep
| AttributeWriteStep
| DispositionStep
| SizeQueryStep
| CloseStep
| ErrorLookupStep
| OtherStep.

Definition step_of (e : OS.Event) : Step :=
  match projT1 e with
  | OS.CreateFileW _ _ _ _ _ => OpenStep
  | OS.GetFileInformationByHandleEx _ FileBasicInfo _ => AttributeReadStep
  | OS.GetFileInformationByHandleEx _ FileStandardInfo _ => SizeQueryStep
  | OS.SetFileInformationByHandle _ FileBasicInfo _ _ => AttributeWriteStep
  | OS.SetFileInformationByHandle _ FileDispositionInfo _ _ => DispositionStep
  | OS.CloseHandle _ => CloseStep
  | OS.GetLastError => ErrorLookupStep
  | _ => OtherStep
  end.

(** The steps of a log, error look-ups left out. *)
Definition steps (t : list OS.Event) : list Step :=
  map step_of (filter (fun e => negb (is_last_error e)) t).

(** Every [GetLastError] of the log comes right after a call that failed;
    [previous] tells whether the call before the log did. *)
Fixpoint lookups_follow_failures (previous : bool) (t : list OS.Event)
  : bool :=
  match t with
  | [] => true
  | e :: t' =>
      (if is_last_error e then previous else true)
      && lookups_follow_failures (event_failed e) t'
  end.

(** The handle a call works on, for the calls that take one. *)
Definition used_handle (e : OS.Event) : option HANDLE :=
  match projT1 e with
  | OS.GetFileInformationByHandleEx h _ _ => Some h
  | OS.SetFileInformationByHandle h _ _ _ => Some h
  | OS.CloseHandle h => Some h
  | _ => None
  end.

(** The [FILE_DISPOSITION_INFO] a delete-disposition call carries. *)
Definition written_disposition (e : OS.Event) : option FILE_DISPOSITION_INFO :=
  match projT1 e with
  | OS.SetFileInformationByHandle _ cls info _ =>
      match cls as c return FILE_INFO c -> option FILE_DISPOSITION_INFO with
      | FileDispositionInfo => fun i => Some i
      | _ => fun _ => None
      end info
  | _ => None
  end.

Definition attribute_read_failed (t : list OS.Event) : bool :=
  existsb (fun e => is_attribute_read e && event_failed e) t.

Definition attribute_write_failed (t : list OS.Event) : bool :=
  existsb (fun e => is_attribute_write e && event_failed e) t.

(** The pointer [LockResource] returned. *)
Definition locked_pointer (e : OS.Event) : option LPVOID :=
  match e with
  | existT _ c r =>
      match c as c0 return OS.Resp c0 -> option LPVOID with
      | OS.LockResource _ => fun x => Some x
      | _ => fun _ => None
      end r
  end.

Definition is_set_last_error (c : OS.Call) : bool :=
  match c with
  | OS.SetLastError _ => true
  | _ => false
  end.

(** The arguments of a [GetSystemWindowsDirectoryW] call: the size of the
    string behind [lpBuffer] (none for [nullptr]) and [uSize]. *)
Definition directory_query (e : OS.Event) : option (option nat * UINT) :=
  match projT1 e with
  | OS.GetSystemWindowsDirectoryW buffer n =>
      Some (option_map (@List.length WCHAR) buffer, n)
  | _ => None
  end.

(** The characters the filling call wrote. *)
Definition filled_characters (e : OS.Event) : option wstring :=
  match e with
  | existT _ c r =>
      match c as c0 return OS.Resp c0 -> option wstring with
      | OS.GetSystemWindowsDirectoryW (Some _) _ => fun x => Some (snd x)
      | _ => fun _ => None
      end r
  end.

(** What the expansion of [__HRESULT_FROM_WIN32] makes of two readings of
    its argument: the first is tested, the second is encoded. *)
Definition HRESULT_FROM_WIN32_reads (tested encoded : DWORD) : HRESULT :=
  if to_HRESULT tested <=? 0 then to_HRESULT encoded
  else to_HRESULT
         (Z.lor (Z.lor (Z.land encoded 0x0000FFFF)
                       (Z.shiftl FACILITY_WIN32 16))
                0x80000000).

(** [GetLastError] only reads: called again at once, it returns the value
    it has just returned. *)
Definition rereads_last_error {World : Type} (os : OS.Handler World) : Prop :=
  forall w : World,
    fst (os OS.GetLastError (snd (os OS.GetLastError w)))
    = fst (os OS.GetLastError w).

(** The last-error value as a thread-local cell: [SetLastError] stores,
    [GetLastError] reads, and a call that succeeds (reading the cell
    included) leaves the value as it was. *)
Definition keeps_last_error {World : Type} (os : OS.Handler World) : Prop :=
  (forall (e : DWORD) (w : World),
      fst (os OS.GetLastError (snd (os (OS.SetLastError e) w))) = to_DWORD e)
  /\ (forall (c : OS.Call) (w : World),
        is_set_last_error c = false ->
        OS.failed c (fst (os c w)) = false ->
        fst (os OS.GetLastError (snd (os c w)))
        = fst (os OS.GetLastError w)).

(** The simulated system with a file whose attributes cannot be read. *)
Definition os_unreadable : OS.Handler Sim.World :=
  fun c =>
    match c as c0 return Sim.World -> OS.Resp c0 * Sim.World with
    | OS.GetFileInformationByHandleEx h cls n =>
        match cls as k
              return Sim.World ->
                     OS.Resp (OS.GetFileInformationByHandleEx h k n)
                     * Sim.World with
        | FileBasicInfo => fun w =>
            ((FALSE, Sim.no_basic_info),
             Sim.set_error Sim.ERROR_ACCESS_DENIED w)
        | k => Sim.os (OS.GetFileInformationByHandleEx h k n)
        end
    | c0 => Sim.os c0
    end.

(** * Properties *)

Unset Implicit Arguments.

(** ** Result codes *)

Lemma to_HRESULT_range (x : Z) : - 2 ^ 31 <= to_HRESULT x < 2 ^ 31.
Proof.
  unfold to_HRESULT.
  pose proof (Z.mod_pos_bound (x + 2 ^ 31) (2 ^ 32) eq_refl). lia.
Qed.

Lemma to_HRESULT_small (x : Z) : - 2 ^ 31 <= x < 2 ^ 31 -> to_HRESULT x = x.
Proof.
  intros Hx. unfold to_HRESULT. rewrite Z.mod_small; lia.
Qed.

Lemma to_HRESULT_idem (x : Z) : to_HRESULT (to_HRESULT x) = to_HRESULT x.
Proof. apply to_HRESULT_small, to_HRESULT_range. Qed.

Lemma to_HRESULT_high (x : Z) :
  2 ^ 31 <= x < 2 ^ 32 -> to_HRESULT x = x - 2 ^ 32.
Proof.
  intros Hx. unfold to_HRESULT.
  replace (x + 2 ^ 31) with (x - 2 ^ 31 + 1 * 2 ^ 32) by lia.
  rewrite Z.mod_add by lia. rewrite Z.mod_small; lia.
Qed.

Lemma SUCCEEDED_not_FAILED (hr : HRESULT) : SUCCEEDED hr = negb (FAILED hr).
Proof.
  unfold SUCCEEDED, FAILED.
  rewrite Z.geb_leb, Z.ltb_antisym, negb_involutive. reflexivity.
Qed.

Lemma S_OK_succeeds : FAILED S_OK = false.
Proof. reflexivity. Qed.

Lemma E_UNEXPECTED_fails : FAILED E_UNEXPECTED = true.
Proof. reflexivity. Qed.

(** The facility word of a translated error: bit 31 set, bits 16..18 the
    Win32 facility, the low word the error code. *)
Lemma facility_word (x : Z) :
  Z.lor (Z.lor (Z.land x 0x0000FFFF) (Z.shiftl FACILITY_WIN32 16)) 0x80000000
  = x mod 2 ^ 16 + 0x80070000.
Proof.
  change (Z.shiftl FACILITY_WIN32 16) with 0x70000.
  assert (H1 : Z.land (Z.land x 0xFFFF) 0x70000 = 0).
  { rewrite <- Z.land_assoc. change (Z.land 0xFFFF 0x70000) with 0.
    apply Z.land_0_r. }
  assert (H2 : Z.land (Z.lor (Z.land x 0xFFFF) 0x70000) 0x80000000 = 0).
  { rewrite Z.land_lor_distr_l, <- Z.land_assoc.
    change (Z.land 0xFFFF 0x80000000) with 0.
    change (Z.land 0x70000 0x80000000) with 0.
    rewrite Z.land_0_r. reflexivity. }
  rewrite <- (Z.lxor_lor _ _ H2), <- (Z.add_nocarry_lxor _ _ H2).
  rewrite <- (Z.lxor_lor _ _ H1), <- (Z.add_nocarry_lxor _ _ H1).
  change 0xFFFF with (Z.ones 16). rewrite Z.land_ones by lia. lia.
Qed.

(** A translated last-error value is a failure code exactly when the
    last-error value is not [ERROR_SUCCESS]. *)
Lemma HRESULT_FROM_WIN32_fails (x : DWORD) :
  FAILED (__HRESULT_FROM_WIN32 x) = negb (to_DWORD x =? ERROR_SUCCESS).
Proof.
  unfold FAILED, __HRESULT_FROM_WIN32, to_DWORD, ERROR_SUCCESS.
  destruct (Z.leb_spec (to_HRESULT x) 0) as [Hle | Hgt].
  - rewrite to_HRESULT_idem.
    unfold to_HRESULT in *.
    pose proof (Z.mod_pos_bound x (2 ^ 32) eq_refl) as Hx.
    pose proof (Z.mod_pos_bound (x + 2 ^ 31) (2 ^ 32) eq_refl) as Hy.
    assert (Hxy : (x + 2 ^ 31) mod 2 ^ 32
                  = (x mod 2 ^ 32 + 2 ^ 31) mod 2 ^ 32)
      by (rewrite Zplus_mod_idemp_l; reflexivity).
    destruct (Z.eqb_spec (x mod 2 ^ 32) 0) as [H0 | Hn0]; cbn [negb].
    + rewrite Hxy, H0. reflexivity.
    + apply Z.ltb_lt.
      destruct (Z_lt_le_dec (x mod 2 ^ 32) (2 ^ 31)) as [Hlo | Hhi].
      * rewrite Hxy, Z.mod_small in Hle by lia. lia.
      * rewrite Hxy.
        replace (x mod 2 ^ 32 + 2 ^ 31)
          with (x mod 2 ^ 32 - 2 ^ 31 + 1 * 2 ^ 32) by lia.
        rewrite Z.mod_add by lia. rewrite Z.mod_small by lia. lia.
  - rewrite to_HRESULT_idem, facility_word.
    pose proof (Z.mod_pos_bound x (2 ^ 16) eq_refl) as Hlow.
    rewrite to_HRESULT_high by lia.
    destruct (Z.eqb_spec (x mod 2 ^ 32) 0) as [H0 | Hn0]; cbn [negb].
    + exfalso. unfold to_HRESULT in Hgt.
      rewrite <- Zplus_mod_idemp_l, H0 in Hgt.
      rewrite Z.mod_small in Hgt; lia.
    + apply Z.ltb_lt. lia.
Qed.

Lemma HRESULT_FROM_WIN32_error (e : DWORD) :
  0 < e < 2 ^ 32 -> FAILED (__HRESULT_FROM_WIN32 e) = true.
Proof.
  intros He. rewrite HRESULT_FROM_WIN32_fails.
  unfold to_DWORD, ERROR_SUCCESS. rewrite Z.mod_small by lia.
  destruct (Z.eqb_spec e 0); [lia | reflexivity].
Qed.

(** The two branches of the expansion of [__HRESULT_FROM_WIN32]: an error
    code that passes the test unchanged is negative, and an encoded value
    always is. *)
Lemma tested_error_fails (e : DWORD) :
  0 < e < 2 ^ 32 -> to_HRESULT e <= 0 -> FAILED (to_HRESULT e) = true.
Proof.
  intros He Hle. pose proof (HRESULT_FROM_WIN32_error e He) as H.
  unfold __HRESULT_FROM_WIN32 in H.
  rewrite (proj2 (Z.leb_le _ _) Hle) in H. exact H.
Qed.

Lemma encoded_error_fails (e : DWORD) :
  FAILED (to_HRESULT
            (Z.lor (Z.lor (Z.land e 0x0000FFFF) (Z.shiftl FACILITY_WIN32 16))
                   0x80000000)) = true.
Proof.
  unfold FAILED. rewrite to_HRESULT_idem, facility_word.
  pose proof (Z.mod_pos_bound e (2 ^ 16) eq_refl) as Hlow.
  rewrite to_HRESULT_high by lia. apply Z.ltb_lt. lia.
Qed.

(** The test [bForceDeleteReadOnlyFile & !SUCCEEDED(hr)] of the restore
    step, a bitwise AND of two values that are 0 or 1. *)
Lemma restore_test (force : bool) (hr : HRESULT) :
  negb (Z.land (Z.b2z force) (Z.b2z (negb (SUCCEEDED hr))) =? 0)
  = force && FAILED hr.
Proof.
  rewrite SUCCEEDED_not_FAILED, negb_involutive.
  destruct force, (FAILED hr); reflexivity.
Qed.

(** The mask [-1 ^ FILE_ATTRIBUTE_READONLY], converted to the type of the
    attribute set it is combined with, clears bit 0 of a 32-bit value. *)
Lemma clear_readonly_bit (a : DWORD) :
  0 <= a < 2 ^ 32 ->
  Z.land a (to_DWORD (Z.lxor (-1) FILE_ATTRIBUTE_READONLY)) = Z.clearbit a 0.
Proof.
  intros Ha.
  change (to_DWORD (Z.lxor (-1) FILE_ATTRIBUTE_READONLY))
    with (Z.land (Z.ones 32) (Z.lnot 1)).
  rewrite Z.land_assoc, Z.land_ones by lia.
  rewrite Z.mod_small by lia.
  rewrite Z.clearbit_spec', Z.ldiff_land. reflexivity.
Qed.

Lemma clear_readonly_range (a : DWORD) :
  0 <= Z.land a (to_DWORD (Z.lxor (-1) FILE_ATTRIBUTE_READONLY)) < 2 ^ 32.
Proof.
  change (to_DWORD (Z.lxor (-1) FILE_ATTRIBUTE_READONLY))
    with (Z.land (Z.lnot 1) (Z.ones 32)).
  rewrite Z.land_assoc, Z.land_ones by lia.
  apply Z.mod_pos_bound. lia.
Qed.

(** Writing through [&s[0]] does not change the size of the string. *)
Lemma stored_length (s written : wstring) :
  List.length (stored s written) = List.length s.
Proof.
  unfold stored.
  rewrite length_firstn, length_app, length_skipn. lia.
Qed.

(** The mask of [M2SetFileAttributes], by the names of the attribute
    flags. *)
Lemma M2SetFileAttributes_value_eq (dwFileAttributes : DWORD) :
  M2SetFileAttributes_value dwFileAttributes
  = Z.lor (Z.land dwFileAttributes recognized_attributes)
          FILE_ATTRIBUTE_NORMAL.
Proof. reflexivity. Qed.

Lemma NORMAL_bit (i : Z) : Z.testbit FILE_ATTRIBUTE_NORMAL i = (i =? 7).
Proof.
  change FILE_ATTRIBUTE_NORMAL with (2 ^ 7).
  rewrite Z.pow2_bits_eqb by lia. apply Z.eqb_sym.
Qed.

(** The simulated system follows the Win32 error convention. *)
Lemma Sim_sets_last_error : OS.sets_last_error Sim.os.
Proof.
  intros c w.
  destruct c; cbn -[Z.eqb Z.ltb Z.pow Z.of_nat Z.add];
    unfold Sim.query, Sim.update;
    repeat match goal with
    | |- context [match ?x with _ => _ end] =>
        destruct x eqn:?; cbn -[Z.eqb Z.ltb Z.pow Z.of_nat Z.add]
    end;
    intros H; try discriminate H; try (split; reflexivity);
    apply Z.eqb_eq in H; lia.
Qed.

Lemma Sim_rereads_last_error : rereads_last_error Sim.os.
Proof. intros w. reflexivity. Qed.

(** ** Runs of the helpers against an arbitrary operating system *)

(** Symbolic execution keeps the arithmetic of the source folded. *)
Ltac exec :=
  cbn -[Z.eqb Z.leb Z.land Z.lor Z.lxor Z.b2z Z.of_nat Z.to_nat Z.sub
        SUCCEEDED FAILED __HRESULT_FROM_WIN32 M2SetFileAttributes_value
        HRESULT_FROM_WIN32_reads to_HRESULT
        to_DWORD to_ULONGLONG resize stored
        INVALID_HANDLE_VALUE INVALID_FILE_ATTRIBUTES nullptr
        S_OK E_UNEXPECTED E_INVALIDARG] in *.

(** Name the answer of the next call; [note c w] records beforehand what
    is known about that call. *)
Ltac answer_noting os note :=
  match goal with
  | |- context [os ?c ?w] =>
      let rw := fresh "rw" in
      let r := fresh "r" in
      let w' := fresh "w" in
      let E := fresh "E" in
      note c w;
      remember (os c w) as rw eqn:E in *;
      destruct rw as [r w']; clear E; exec
  end.

Ltac answer os := answer_noting os ltac:(fun c w => idtac).

(** The same, keeping what the Win32 error convention [H] says. *)
Ltac answer_with H os :=
  answer_noting os
    ltac:(fun c w => let C := fresh "C" in pose proof (H c w) as C).

(** What the error convention gives once the tests are decided. *)
Ltac convention :=
  repeat match goal with
  | C : (?a =? ?b) = true -> _ |- _ =>
      first [ specialize (C (proj2 (Z.eqb_eq a b) ltac:(congruence)))
            | clear C ]
  | C : true = true -> _ |- _ => specialize (C eq_refl)
  | C : false = true -> _ |- _ => clear C
  end.

(** Decide the next test of the program. *)
Ltac branch :=
  match goal with
  | r : (_ * _)%type |- _ => destruct r; exec
  | |- context [List.length (stored _ _)] => rewrite stored_length; exec
  | |- context [negb (Z.land (Z.b2z _) (Z.b2z (negb (SUCCEEDED _))) =? 0)] =>
      rewrite restore_test; exec
  | |- context [FAILED S_OK] => rewrite S_OK_succeeds; exec
  | |- context [FAILED E_UNEXPECTED] => rewrite E_UNEXPECTED_fails; exec
  | |- context [FAILED (__HRESULT_FROM_WIN32 ?e)] =>
      first [ rewrite (HRESULT_FROM_WIN32_error e) by (convention; lia)
            | let F := fresh "F" in
              destruct (FAILED (__HRESULT_FROM_WIN32 e)) eqn:F ]; exec
  | |- context [?a =? ?b] =>
      let Heq := fresh "Heq" in
      destruct (Z.eqb_spec a b) as [Heq | Heq]; exec
  end.

(** Unfold a helper down to its system calls. *)
Ltac enter :=
  cbv zeta;
  unfold M2DeleteFile, M2GetFileAllocationSize, M2GetFileSize,
    M2GetWindowsDirectory, M2LoadResource, __HRESULT_FROM_WIN32_of,
    M2GetFileAttributes, M2SetFileAttributes, M2GetLastError;
  unfold restore_writes, unprotect_writes, applied_attributes,
    disposition_failed, open_failed, query_failed, directory_query_failed,
    size_mismatch, resource_found, load_failed, event_failed;
  exec.

(** Follow every path of the program. *)
Ltac paths os := repeat first [answer os | branch].
Ltac paths_with H os := repeat first [answer_with H os | branch].

(** Decide the test of the expansion of [__HRESULT_FROM_WIN32]. *)
Ltac macro_test :=
  match goal with
  | |- context [to_HRESULT ?x <=? 0] =>
      let T := fresh "T" in
      destruct (Z.leb_spec (to_HRESULT x) 0) as [T | T]; exec
  end.

(** Name the answer of the next call, keeping what the error convention
    [H] and the re-reading property [R] say about it. *)
Ltac answer_rereading H R os :=
  answer_noting os
    ltac:(fun c w =>
            let C := fresh "C" in
            pose proof (H c w) as C;
            lazymatch c with
            | OS.GetLastError =>
                let Q := fresh "Q" in pose proof (R w) as Q
            | _ => idtac
            end).

Ltac finish :=
  repeat match goal with
  | H : false = true |- _ => discriminate H
  | H : true = false |- _ => discriminate H
  | |- _ /\ _ => split
  | |- _ <-> _ => split
  | |- _ -> _ => intro
  | |- exists _, _ => eexists
  | H : _ /\ _ |- _ => destruct H
  end;
  subst;
  try solve [ reflexivity | discriminate | congruence | tauto
            | cbn; lia | exfalso; congruence ].

Section Runs.

Context {World : Type} (os : OS.Handler World).

(** *** M2DeleteFile *)


(** Without any assumption on the operating system: the restore write is
    issued exactly when the force flag is set, the delete-disposition call
    failed and the reported result is a failure code. *)
Lemma M2DeleteFile_restore_exact (w : World) (lpFileName : LPCWSTR)
      (bForceDeleteReadOnlyFile : bool) :
  let o := run os (M2DeleteFile lpFileName bForceDeleteReadOnlyFile) w in
  List.length (restore_writes (trace o))
  = if bForceDeleteReadOnlyFile && disposition_failed (trace o)
       && FAILED (result o)
    then 1%nat else 0%nat.
Proof.
  enter.
  destruct bForceDeleteReadOnlyFile; exec.
  all: paths os.
  all: try rewrite S_OK_succeeds.
  all: finish.
Qed.

(** C4.  When the open fails, [M2DeleteFile] issues nothing but the
    error look-up and the handle release: no attribute read, no attribute
    write, no delete-disposition call; it returns the translated
    last-error value of the failed open. *)
Theorem M2DeleteFile_open_failure (w : World) (lpFileName : LPCWSTR)
        (bForceDeleteReadOnlyFile : bool) :
  open_failed
    (trace (run os (M2DeleteFile lpFileName bForceDeleteReadOnlyFile) w))
  = true ->
  let o := run os (M2DeleteFile lpFileName bForceDeleteReadOnlyFile) w in
  (exists (e : DWORD) (b : BOOL),
      trace o =
      [ OS.CreateFileW lpFileName
          (Z.lor SYNCHRONIZE (Z.lor DELETE
             (Z.lor FILE_READ_ATTRIBUTES FILE_WRITE_ATTRIBUTES)))
          (Z.lor FILE_SHARE_READ (Z.lor FILE_SHARE_WRITE FILE_SHARE_DELETE))
          OPEN_EXISTING
          (Z.lor FILE_FLAG_BACKUP_SEMANTICS FILE_FLAG_OPEN_REPARSE_POINT)
        ~> INVALID_HANDLE_VALUE;
        OS.GetLastError ~> e;
        OS.CloseHandle INVALID_HANDLE_VALUE ~> b ]
      /\ result o = __HRESULT_FROM_WIN32 e)
  /\ existsb is_attribute_read (trace o) = false
  /\ existsb is_attribute_write (trace o) = false
  /\ existsb is_disposition (trace o) = false.
Proof.
  enter.
  destruct bForceDeleteReadOnlyFile; exec.
  all: paths os.
  all: finish.
Qed.

(** C5.  With the force flag false, [M2DeleteFile] never reads nor writes
    the attributes of the file: every call it issues is the open, the
    delete-disposition call, an error look-up or the handle release. *)
Theorem M2DeleteFile_no_force_no_attribute_access (w : World)
        (lpFileName : LPCWSTR) :
  let t := trace (run os (M2DeleteFile lpFileName false) w) in
  existsb is_attribute_read t = false
  /\ existsb is_attribute_write t = false
  /\ forallb (fun e => is_open e || is_disposition e
                       || is_last_error e || is_close e) t = true.
Proof.
  enter. paths os. all: finish.
Qed.

(** C9.  Every run of [M2DeleteFile] opens one handle and releases that
    handle exactly once, and the release is the last call it issues. *)
Theorem M2DeleteFile_closes_once (w : World) (lpFileName : LPCWSTR)
        (bForceDeleteReadOnlyFile : bool) :
  let t :=
    trace (run os (M2DeleteFile lpFileName bForceDeleteReadOnlyFile) w) in
  exists hFile : HANDLE,
    collect opened_handle t = [hFile]
    /\ collect closed_handle t = [hFile]
    /\ option_map is_close (hd_error (rev t)) = Some true.
Proof.
  enter.
  destruct bForceDeleteReadOnlyFile; exec.
  all: paths os.
  all: finish.
Qed.

(** The result code of [M2DeleteFile] can be read off the log of its
    primary actions. *)
Lemma M2DeleteFile_result_from_log (w : World) (lpFileName : LPCWSTR)
      (bForceDeleteReadOnlyFile : bool) :
  let o := run os (M2DeleteFile lpFileName bForceDeleteReadOnlyFile) w in
  primary_outcome (trace o) = Some (result o)
  /\ primary_outcome (primary_part (trace o)) = Some (result o).
Proof.
  enter.
  destruct bForceDeleteReadOnlyFile; exec.
  all: paths os.
  all: finish.
Qed.

(** What [M2DeleteFile] returns, by the fate of its primary action. *)
Lemma M2DeleteFile_failure_is_reported (w : World) (lpFileName : LPCWSTR)
      (bForceDeleteReadOnlyFile : bool) :
  let o := run os (M2DeleteFile lpFileName bForceDeleteReadOnlyFile) w in
  (open_failed (trace o) = true ->
   exists e : DWORD,
     nth_error (trace o) 1 = Some (OS.GetLastError ~> e)
     /\ result o = __HRESULT_FROM_WIN32 e)
  /\ (open_failed (trace o) = false ->
      List.length (filter is_disposition (trace o)) = 1%nat)
  /\ (disposition_failed (trace o) = true ->
      exists e : DWORD,
        hd_error (after_disposition (trace o)) = Some (OS.GetLastError ~> e)
        /\ result o = __HRESULT_FROM_WIN32 e)
  /\ (open_failed (trace o) || disposition_failed (trace o) = false ->
      result o = S_OK).
Proof.
  enter.
  destruct bForceDeleteReadOnlyFile; exec.
  all: paths os.
  all: finish.
Qed.

(** C6.  In the unprotect step of [M2DeleteFile], [M2SetFileAttributes]
    is handed the attribute set that was read with exactly the read-only
    bit cleared: for a 32-bit value [a], [a & (-1 ^ FILE_ATTRIBUTE_READONLY)]
    has bit 0 clear and every other bit as in [a]. *)
Theorem M2DeleteFile_unprotect_value (w : World) (lpFileName : LPCWSTR)
        (bForceDeleteReadOnlyFile : bool) (a : DWORD) :
  0 <= a < 2 ^ 32 ->
  pick read_attributes
    (trace (run os (M2DeleteFile lpFileName bForceDeleteReadOnlyFile) w))
  = Some a ->
  let t :=
    trace (run os (M2DeleteFile lpFileName bForceDeleteReadOnlyFile) w) in
  let v := Z.land a (to_DWORD (Z.lxor (-1) FILE_ATTRIBUTE_READONLY)) in
  bForceDeleteReadOnlyFile = true
  /\ applied_attributes (before_disposition t)
     = [Some (M2SetFileAttributes_value v)]
  /\ v = Z.clearbit a 0
  /\ Z.testbit v 0 = false
  /\ (forall i : Z, i <> 0 -> Z.testbit v i = Z.testbit a i)
  /\ 0 <= v < 2 ^ 32.
Proof.
  intros Ha Hread. cbv zeta.
  pose proof (clear_readonly_range a) as Hrange.
  rewrite (clear_readonly_bit a Ha) in *.
  assert (Hbits : forall i : Z,
             i <> 0 -> Z.testbit (Z.clearbit a 0) i = Z.testbit a i).
  { intros i Hi. apply Z.clearbit_neq. congruence. }
  repeat split; auto using Z.clearbit_eq; try apply Hrange;
    revert Hread; enter;
    destruct bForceDeleteReadOnlyFile; exec; paths os;
    try discriminate;
    intros Hread; injection Hread as <-;
    rewrite ?(clear_readonly_bit _ Ha); reflexivity.
Qed.

(** *** M2SetFileAttributes *)

(** C2, as the code has it.  [M2SetFileAttributes] issues one attribute
    write; the value it carries is the input restricted to the read-only,
    hidden, system, archive, temporary, offline, not-content-indexed and
    no-scrub-data flags, combined with the normal flag: every other bit is
    dropped and the normal bit is always set. *)
Theorem M2SetFileAttributes_applies (w : World) (hFile : HANDLE)
        (dwFileAttributes : DWORD) :
  let applied :=
    Z.lor (Z.land dwFileAttributes recognized_attributes)
          FILE_ATTRIBUTE_NORMAL in
  applied_attributes
    (trace (run os (M2SetFileAttributes hFile dwFileAttributes) w))
  = [Some applied]
  /\ (forall i : Z,
        Z.testbit applied i
        = Z.testbit dwFileAttributes i && Z.testbit recognized_attributes i
          || (i =? 7))
  /\ Z.land applied FILE_ATTRIBUTE_NORMAL = FILE_ATTRIBUTE_NORMAL
  /\ Z.land applied
       (Z.lnot (Z.lor recognized_attributes FILE_ATTRIBUTE_NORMAL)) = 0.
Proof.
  cbv zeta. rewrite <- M2SetFileAttributes_value_eq. repeat split.
  - enter. paths os; reflexivity.
  - intros i. rewrite M2SetFileAttributes_value_eq.
    rewrite Z.lor_spec, Z.land_spec, NORMAL_bit. reflexivity.
  - rewrite M2SetFileAttributes_value_eq.
    apply Z.bits_inj'. intros n _.
    rewrite Z.land_spec, Z.lor_spec, Z.land_spec.
    destruct (Z.testbit dwFileAttributes n),
      (Z.testbit recognized_attributes n),
      (Z.testbit FILE_ATTRIBUTE_NORMAL n); reflexivity.
  - rewrite M2SetFileAttributes_value_eq.
    apply Z.bits_inj'. intros n Hn.
    rewrite Z.land_spec, Z.lnot_spec, !Z.lor_spec, Z.land_spec,
      Z.bits_0 by assumption.
    destruct (Z.testbit dwFileAttributes n),
      (Z.testbit recognized_attributes n),
      (Z.testbit FILE_ATTRIBUTE_NORMAL n); reflexivity.
Qed.

(** *** M2GetFileAllocationSize and M2GetFileSize *)

(** C8.  Both size queries leave zero in the out-value whenever the open
    or the information query fails, and whenever they return a failure
    code; when neither call fails they return [S_OK] and the out-value is
    the queried size. *)
Theorem size_queries_zero_on_failure (w : World) (lpFileName : LPCWSTR)
        (initial : ULONGLONG) :
  let a := run os (M2GetFileAllocationSize lpFileName initial) w in
  let s := run os (M2GetFileSize lpFileName initial) w in
  ((open_failed (trace a) || query_failed (trace a) = true ->
    snd (result a) = 0)
   /\ (FAILED (fst (result a)) = true -> snd (result a) = 0)
   /\ (open_failed (trace a) || query_failed (trace a) = false ->
       fst (result a) = S_OK
       /\ exists StandardInfo : FILE_STANDARD_INFO,
           pick queried_standard_info (trace a) = Some StandardInfo
           /\ snd (result a)
              = to_ULONGLONG (AllocationSize StandardInfo)))
  /\
  ((open_failed (trace s) || query_failed (trace s) = true ->
    snd (result s) = 0)
   /\ (FAILED (fst (result s)) = true -> snd (result s) = 0)
   /\ (open_failed (trace s) || query_failed (trace s) = false ->
       fst (result s) = S_OK
       /\ exists StandardInfo : FILE_STANDARD_INFO,
           pick queried_standard_info (trace s) = Some StandardInfo
           /\ snd (result s) = to_ULONGLONG (EndOfFile StandardInfo))).
Proof.
  split; enter; paths os; finish.
Qed.

(** *** M2GetWindowsDirectory *)

(** Without any assumption on the operating system: a failure code always
    comes with an empty string. *)
Lemma M2GetWindowsDirectory_failure_code_clears (w : World)
      (WindowsFolderPath : wstring) :
  let o := run os (M2GetWindowsDirectory WindowsFolderPath) w in
  (FAILED (fst (result o)) = true -> snd (result o) = [])
  /\ (snd (result o) <> [] -> FAILED (fst (result o)) = false).
Proof.
  enter. paths os. all: finish.
Qed.

(** C7.  [M2GetWindowsDirectory] hands back an empty string whenever it
    fails: when one of the two system calls fails it returns the
    translated last-error value, when the length returned by the filling
    call differs from the size of the string it returns [E_UNEXPECTED],
    and in both cases the string is cleared; a non-empty string comes only
    with [S_OK].  The operating system is assumed to follow the Win32
    convention that a failing call leaves a non-zero last-error value. *)
Theorem M2GetWindowsDirectory_clears_on_failure (w : World)
        (WindowsFolderPath : wstring) :
  OS.sets_last_error os ->
  let o := run os (M2GetWindowsDirectory WindowsFolderPath) w in
  let hr := fst (result o) in
  let path := snd (result o) in
  (directory_query_failed (trace o) = true ->
   path = [] /\ FAILED hr = true
   /\ exists e : DWORD,
       hd_error (rev (trace o)) = Some (OS.GetLastError ~> e)
       /\ hr = __HRESULT_FROM_WIN32 e)
  /\ (directory_query_failed (trace o) = false ->
      size_mismatch (trace o) = true ->
      path = [] /\ hr = E_UNEXPECTED)
  /\ (directory_query_failed (trace o) = false ->
      size_mismatch (trace o) = false ->
      hr = S_OK)
  /\ (FAILED hr = true -> path = [])
  /\ (path <> [] -> hr = S_OK).
Proof.
  intros Hos. enter. paths_with Hos os. all: finish.
Qed.

(** *** M2LoadResource *)

(** C10.  When the resource is found and loading it fails,
    [M2LoadResource] returns a failure code and leaves in the descriptor
    the size of the resource that was found, with a null pointer.  The
    operating system is assumed to follow the Win32 convention that a
    failing call leaves a non-zero last-error value, and [GetLastError] to
    only read it: the macro of line 62 reads the value twice. *)
Theorem M2LoadResource_load_failure (w : World) (info : M2_RESOURCE_INFO)
        (hModule : HMODULE) (lpType lpName : LPCWSTR) :
  OS.sets_last_error os ->
  rereads_last_error os ->
  resource_found
    (trace (run os (M2LoadResource (Some info) hModule lpType lpName) w))
  = true ->
  load_failed
    (trace (run os (M2LoadResource (Some info) hModule lpType lpName) w))
  = true ->
  let o := run os (M2LoadResource (Some info) hModule lpType lpName) w in
  FAILED (fst (result o)) = true
  /\ exists size : DWORD,
      pick resource_size_answer (trace o) = Some size
      /\ snd (result o) = Some {| Size := size; Pointer := nullptr |}.
Proof.
  intros Hos Hre. enter.
  repeat first [answer_rereading Hos Hre os | macro_test | branch].
  all: intros Hfound Hload; try discriminate.
  all: convention; subst.
  all: split; [| eexists; split; reflexivity].
  all: first [apply tested_error_fails; assumption
             | apply encoded_error_fails].
Qed.

End Runs.

(** C3.  The result code of [M2DeleteFile] is the outcome of its primary
    action and of nothing else.  When the open fails, the call right after
    it reads the last-error value and the translation of that value is
    returned; when the open succeeds the delete-disposition call is issued,
    once, and the result is [S_OK] if it succeeded and otherwise the
    translation of the last-error value read right after it.  The result
    can be read off the log with the compensating steps taken out, so what
    the unprotect write and the restore write return has no effect on it:
    two runs that agree on their primary actions report the same code. *)
Theorem M2DeleteFile_reports_primary {World : Type} (os : OS.Handler World)
        (w : World) (lpFileName : LPCWSTR) (bForceDeleteReadOnlyFile : bool) :
  let o := run os (M2DeleteFile lpFileName bForceDeleteReadOnlyFile) w in
  primary_outcome (trace o) = Some (result o)
  /\ primary_outcome (primary_part (trace o)) = Some (result o)
  /\ (open_failed (trace o) = true ->
      exists e : DWORD,
        nth_error (trace o) 1 = Some (OS.GetLastError ~> e)
        /\ result o = __HRESULT_FROM_WIN32 e)
  /\ (open_failed (trace o) = false ->
      List.length (filter is_disposition (trace o)) = 1%nat)
  /\ (disposition_failed (trace o) = true ->
      exists e : DWORD,
        hd_error (after_disposition (trace o)) = Some (OS.GetLastError ~> e)
        /\ result o = __HRESULT_FROM_WIN32 e)
  /\ (open_failed (trace o) || disposition_failed (trace o) = false ->
      result o = S_OK)
  /\ forall (World' : Type) (os' : OS.Handler World') (w' : World')
            (lpFileName' : LPCWSTR) (bForceDeleteReadOnlyFile' : bool),
       let o' :=
         run os' (M2DeleteFile lpFileName' bForceDeleteReadOnlyFile') w' in
       primary_part (trace o') = primary_part (trace o) ->
       result o' = result o.
Proof.
  cbv zeta.
  destruct (M2DeleteFile_result_from_log os w lpFileName
              bForceDeleteReadOnlyFile) as [Hlog Hprimary].
  destruct (M2DeleteFile_failure_is_reported os w lpFileName
              bForceDeleteReadOnlyFile)
    as [Hopen [Hattempt [Hdisposition Hsuccess]]].
  repeat (split; [assumption |]).
  intros World' os' w' lpFileName' bForceDeleteReadOnlyFile' Hsame.
  destruct (M2DeleteFile_result_from_log os' w' lpFileName'
              bForceDeleteReadOnlyFile') as [_ Hprimary'].
  rewrite Hsame, Hprimary in Hprimary'.
  injection Hprimary' as Heq. symmetry. exact Heq.
Qed.

(** ** The helpers on the simulated system *)

Local Open Scope string_scope.

(** Deleting a read-only file with the force flag: the read-only bit is
    cleared, the file is marked, nothing is restored, and the file is gone
    once the handle is closed. *)
Example force_delete_read_only :
  let o := run Sim.os (M2DeleteFile "C:\data\report.txt" true) Sim.w0 in
  result o = S_OK
  /\ applied_attributes (trace o)
     = [Some (Z.lor FILE_ATTRIBUTE_ARCHIVE FILE_ATTRIBUTE_NORMAL)]
  /\ restore_writes (trace o) = []
  /\ Sim.present (world o) = false.
Proof. repeat split. Qed.

(** Deleting it without the force flag: access denied (0x80070005), and the
    attributes stay as they were. *)
Example plain_delete_read_only :
  let o := run Sim.os (M2DeleteFile "C:\data\report.txt" false) Sim.w0 in
  result o = to_HRESULT 0x80070005
  /\ Sim.attributes (world o) = Sim.attributes Sim.w0
  /\ Sim.present (world o) = true.
Proof. repeat split. Qed.

(** The deletion fails after the read-only bit was cleared: the original
    attributes are written back before the handle is released. *)
Example force_delete_in_use :
  let o := run Sim.os (M2DeleteFile "C:\data\report.txt" true) Sim.w_in_use in
  result o = to_HRESULT 0x80070005
  /\ applied_attributes (trace o)
     = [Some (Z.lor FILE_ATTRIBUTE_ARCHIVE FILE_ATTRIBUTE_NORMAL);
        Some (Z.lor FILE_ATTRIBUTE_READONLY
                (Z.lor FILE_ATTRIBUTE_ARCHIVE FILE_ATTRIBUTE_NORMAL))]
  /\ Sim.attributes (world o) = Sim.attributes Sim.w_in_use
  /\ Sim.present (world o) = true.
Proof. repeat split. Qed.

Example sizes_of_the_file :
  result (run Sim.os (M2GetFileSize "C:\data\report.txt" 77) Sim.w0)
  = (S_OK, 5000)
  /\ result (run Sim.os (M2GetFileAllocationSize "C:\data\report.txt" 77)
               Sim.w0)
     = (S_OK, 8192).
Proof. split; reflexivity. Qed.

Example windows_directory :
  result (run Sim.os (M2GetWindowsDirectory [1; 2]) Sim.w0)
  = (S_OK, Sim.windir Sim.w0).
Proof. reflexivity. Qed.

(** ** Instances *)


(** C2, as the specification words it, fails on the system flag: the
    specification's list of recognized flags leaves it out and the mask of
    the code lets it through. *)
Lemma M2SetFileAttributes_keeps_system_flag :
  applied_attributes
    (trace (run Sim.os
              (M2SetFileAttributes Sim.the_handle FILE_ATTRIBUTE_SYSTEM)
              Sim.w0))
  = [Some 0x84]
  /\ applied_by_spec FILE_ATTRIBUTE_SYSTEM = 0x80
  /\ applied_attributes
       (trace (run Sim.os
                 (M2SetFileAttributes Sim.the_handle FILE_ATTRIBUTE_SYSTEM)
                 Sim.w0))
     <> [Some (applied_by_spec FILE_ATTRIBUTE_SYSTEM)].
Proof.
  split; [reflexivity |]. split; [reflexivity |].
  vm_compute. discriminate.
Qed.

Lemma M2DeleteFile_reports_primary_witness :
  let a := run Sim.os (M2DeleteFile "C:\data\report.txt" true) Sim.w_in_use in
  let b := run Sim.os (M2DeleteFile "C:\data\report.txt" true) Sim.w_frozen in
  primary_part (trace b) = primary_part (trace a)
  /\ map event_failed (filter is_attribute_write (trace a)) = [false; false]
  /\ map event_failed (filter is_attribute_write (trace b)) = [true; true]
  /\ result b = result a.
Proof.
  cbv zeta.
  split; [reflexivity |]. split; [reflexivity |]. split; [reflexivity |].
  pose proof (M2DeleteFile_reports_primary Sim.os Sim.w_in_use
                "C:\data\report.txt" true) as H.
  cbv zeta in H.
  exact (proj2 (proj2 (proj2 (proj2 (proj2 (proj2 H)))))
           Sim.World Sim.os Sim.w_frozen "C:\data\report.txt" true eq_refl).
Defined.

Lemma M2DeleteFile_open_failure_witness :
  open_failed
    (trace (run Sim.os (M2DeleteFile "C:\data\report.txt" true) Sim.w_missing))
  = true
  /\ let o := run Sim.os (M2DeleteFile "C:\data\report.txt" true)
                Sim.w_missing in
     result o = to_HRESULT 0x80070002
     /\ existsb is_attribute_read (trace o) = false
     /\ existsb is_attribute_write (trace o) = false
     /\ existsb is_disposition (trace o) = false.
Proof.
  split; [reflexivity |].
  pose proof (M2DeleteFile_open_failure Sim.os Sim.w_missing
                "C:\data\report.txt" true eq_refl) as H.
  cbv zeta in *. split; [reflexivity | exact (proj2 H)].
Defined.

Lemma M2DeleteFile_unprotect_value_witness :
  0 <= 0x21 < 2 ^ 32
  /\ pick read_attributes
       (trace (run Sim.os (M2DeleteFile "C:\data\report.txt" true) Sim.w0))
     = Some 0x21
  /\ applied_attributes
       (before_disposition
          (trace (run Sim.os (M2DeleteFile "C:\data\report.txt" true) Sim.w0)))
     = [Some (M2SetFileAttributes_value
                (Z.land 0x21
                   (to_DWORD (Z.lxor (-1) FILE_ATTRIBUTE_READONLY))))]
  /\ Z.land 0x21 (to_DWORD (Z.lxor (-1) FILE_ATTRIBUTE_READONLY))
     = Z.clearbit 0x21 0.
Proof.
  assert (Ha : 0 <= 0x21 < 2 ^ 32) by lia.
  pose proof (M2DeleteFile_unprotect_value Sim.os Sim.w0
                "C:\data\report.txt" true 0x21 Ha eq_refl) as H.
  cbv zeta in H.
  split; [exact Ha |]. split; [reflexivity |].
  split; [exact (proj1 (proj2 H)) | exact (proj1 (proj2 (proj2 H)))].
Defined.

Lemma M2GetWindowsDirectory_clears_on_failure_witness :
  OS.sets_last_error Sim.os
  /\ let o := run Sim.os (M2GetWindowsDirectory [1; 2]) Sim.w_missing in
     directory_query_failed (trace o) = true
     /\ snd (result o) = []
     /\ FAILED (fst (result o)) = true.
Proof.
  split; [exact Sim_sets_last_error |].
  pose proof (M2GetWindowsDirectory_clears_on_failure Sim.os Sim.w_missing
                [1; 2] Sim_sets_last_error) as H.
  cbv zeta in *.
  split; [reflexivity |].
  destruct (proj1 H eq_refl) as [Hpath [Hfail _]].
  split; assumption.
Defined.

Lemma size_queries_zero_on_failure_witness :
  let a := run Sim.os (M2GetFileAllocationSize "C:\data\report.txt" 77)
             Sim.w_missing in
  let s := run Sim.os (M2GetFileSize "C:\data\report.txt" 77) Sim.w_missing in
  open_failed (trace a) || query_failed (trace a) = true
  /\ open_failed (trace s) || query_failed (trace s) = true
  /\ snd (result a) = 0
  /\ snd (result s) = 0.
Proof.
  pose proof (size_queries_zero_on_failure Sim.os Sim.w_missing
                "C:\data\report.txt" 77) as H.
  cbv zeta in *.
  split; [reflexivity |]. split; [reflexivity |].
  split; [exact (proj1 (proj1 H) eq_refl)
         | exact (proj1 (proj2 H) eq_refl)].
Defined.

(** A failing call that comes back with a non-zero [Size]. *)
Lemma M2LoadResource_load_failure_witness :
  OS.sets_last_error Sim.os
  /\ rereads_last_error Sim.os
  /\ let o := run Sim.os
                (M2LoadResource (Some {| Size := 9; Pointer := 9 |}) 0
                   "RT_RCDATA" "PAYLOAD")
                Sim.w_in_use in
     resource_found (trace o) = true
     /\ load_failed (trace o) = true
     /\ FAILED (fst (result o)) = true
     /\ snd (result o) = Some {| Size := 1234; Pointer := nullptr |}.
Proof.
  split; [exact Sim_sets_last_error |].
  split; [exact Sim_rereads_last_error |].
  pose proof (M2LoadResource_load_failure Sim.os Sim.w_in_use
                {| Size := 9; Pointer := 9 |} 0 "RT_RCDATA" "PAYLOAD"
                Sim_sets_last_error Sim_rereads_last_error
                eq_refl eq_refl) as H.
  cbv zeta in *.
  split; [reflexivity |]. split; [reflexivity |].
  split; [exact (proj1 H) | reflexivity].
Defined.

(** * Further properties of the helpers *)

Local Close Scope string_scope.

(** ** Attribute masks *)

(** The value written by the unprotect step, by the names of the flags:
    the settable flags of the input other than read-only, and normal. *)
Lemma M2SetFileAttributes_value_unprotected (a : DWORD) :
  M2SetFileAttributes_value
    (Z.land a (to_DWORD (Z.lxor (-1) FILE_ATTRIBUTE_READONLY)))
  = Z.lor (Z.land a (Z.ldiff recognized_attributes FILE_ATTRIBUTE_READONLY))
          FILE_ATTRIBUTE_NORMAL.
Proof.
  rewrite M2SetFileAttributes_value_eq, <- Z.land_assoc. reflexivity.
Qed.

Lemma READONLY_bit (i : Z) : Z.testbit FILE_ATTRIBUTE_READONLY i = (i =? 0).
Proof.
  change FILE_ATTRIBUTE_READONLY with (2 ^ 0).
  rewrite Z.pow2_bits_eqb by lia. apply Z.eqb_sym.
Qed.

(** Bit by bit: what [M2SetFileAttributes] applies. *)
Lemma M2SetFileAttributes_value_bit (a : DWORD) (i : Z) :
  Z.testbit (M2SetFileAttributes_value a) i
  = Z.testbit a i && Z.testbit recognized_attributes i || (i =? 7).
Proof.
  rewrite M2SetFileAttributes_value_eq, Z.lor_spec, Z.land_spec, NORMAL_bit.
  reflexivity.
Qed.

Lemma NORMAL_not_recognized (i : Z) :
  Z.testbit FILE_ATTRIBUTE_NORMAL i && Z.testbit recognized_attributes i
  = false.
Proof.
  rewrite <- Z.land_spec.
  change (Z.land FILE_ATTRIBUTE_NORMAL recognized_attributes) with 0.
  apply Z.bits_0.
Qed.

(** The unprotect value has the read-only bit clear. *)
Lemma unprotected_not_readonly (a : DWORD) :
  Z.testbit
    (M2SetFileAttributes_value
       (Z.land a (to_DWORD (Z.lxor (-1) FILE_ATTRIBUTE_READONLY)))) 0
  = false.
Proof.
  rewrite M2SetFileAttributes_value_unprotected, Z.lor_spec, Z.land_spec.
  change (Z.testbit
            (Z.ldiff recognized_attributes FILE_ATTRIBUTE_READONLY) 0)
    with false.
  rewrite andb_false_r. reflexivity.
Qed.

(** The restore value is the unprotect value with the read-only bit of
    the input put back. *)
Lemma restored_from_unprotected (a : DWORD) :
  M2SetFileAttributes_value a
  = Z.lor (M2SetFileAttributes_value
             (Z.land a (to_DWORD (Z.lxor (-1) FILE_ATTRIBUTE_READONLY))))
          (Z.land a FILE_ATTRIBUTE_READONLY).
Proof.
  rewrite M2SetFileAttributes_value_unprotected, M2SetFileAttributes_value_eq.
  apply Z.bits_inj'. intros n _.
  rewrite !Z.lor_spec, !Z.land_spec, Z.ldiff_spec, READONLY_bit.
  destruct (Z.eqb_spec n 0) as [-> | Hn].
  - change (Z.testbit recognized_attributes 0) with true.
    change (Z.testbit FILE_ATTRIBUTE_NORMAL 0) with false.
    destruct (Z.testbit a 0); reflexivity.
  - destruct (Z.testbit a n), (Z.testbit recognized_attributes n),
      (Z.testbit FILE_ATTRIBUTE_NORMAL n); reflexivity.
Qed.

(** [M2SetFileAttributes] passes every settable flag of its input on. *)
Lemma M2SetFileAttributes_value_settable (a : DWORD) :
  Z.land (M2SetFileAttributes_value a) recognized_attributes
  = Z.land a recognized_attributes.
Proof.
  apply Z.bits_inj'. intros n _.
  rewrite !Z.land_spec, M2SetFileAttributes_value_bit, <- NORMAL_bit.
  pose proof (NORMAL_not_recognized n) as H.
  destruct (Z.testbit a n), (Z.testbit recognized_attributes n),
    (Z.testbit FILE_ATTRIBUTE_NORMAL n); simpl in *; congruence.
Qed.

Lemma land_bounded (a b : Z) : 0 <= b -> 0 <= Z.land a b <= b.
Proof.
  intros Hb. split; [apply Z.land_nonneg; right; exact Hb |].
  assert (Hdisjoint : Z.land (Z.ldiff b a) (Z.land b a) = 0).
  { rewrite (Z.land_comm b a), Z.land_assoc, Z.land_ldiff.
    apply Z.land_0_l. }
  pose proof (Z.lor_ldiff_and b a) as Hsplit.
  rewrite <- (Z.lxor_lor _ _ Hdisjoint),
    <- (Z.add_nocarry_lxor _ _ Hdisjoint) in Hsplit.
  assert (0 <= Z.ldiff b a) by (apply Z.ldiff_nonneg; left; exact Hb).
  rewrite (Z.land_comm a b). lia.
Qed.

(** X8.  The value [M2SetFileAttributes] applies is stable: applying the
    helper to a value it produced gives that value again; every settable
    flag of the input is passed on; and the value lies between
    [FILE_ATTRIBUTE_NORMAL] and the union of all flags the helper lets
    through, so it is never zero and never [INVALID_FILE_ATTRIBUTES]. *)
Theorem M2SetFileAttributes_value_stable (dwFileAttributes : DWORD) :
  let applied := M2SetFileAttributes_value dwFileAttributes in
  M2SetFileAttributes_value applied = applied
  /\ Z.land applied recognized_attributes
     = Z.land dwFileAttributes recognized_attributes
  /\ FILE_ATTRIBUTE_NORMAL <= applied
     <= Z.lor recognized_attributes FILE_ATTRIBUTE_NORMAL
  /\ applied <> INVALID_FILE_ATTRIBUTES.
Proof.
  cbv zeta.
  assert (Hrange : FILE_ATTRIBUTE_NORMAL
                   <= M2SetFileAttributes_value dwFileAttributes
                   <= Z.lor recognized_attributes FILE_ATTRIBUTE_NORMAL).
  { rewrite M2SetFileAttributes_value_eq.
    assert (Hdisjoint : Z.land (Z.land dwFileAttributes recognized_attributes)
                               FILE_ATTRIBUTE_NORMAL = 0).
    { rewrite <- Z.land_assoc.
      change (Z.land recognized_attributes FILE_ATTRIBUTE_NORMAL) with 0.
      apply Z.land_0_r. }
    rewrite <- (Z.lxor_lor _ _ Hdisjoint),
      <- (Z.add_nocarry_lxor _ _ Hdisjoint).
    pose proof (land_bounded dwFileAttributes recognized_attributes) as Hb.
    change (Z.lor recognized_attributes FILE_ATTRIBUTE_NORMAL)
      with (recognized_attributes + FILE_ATTRIBUTE_NORMAL).
    assert (0 <= recognized_attributes) by (vm_compute; discriminate).
    lia. }
  split; [| split; [apply M2SetFileAttributes_value_settable |
                    split; [exact Hrange |]]].
  - apply Z.bits_inj'. intros n _.
    rewrite !M2SetFileAttributes_value_bit.
    destruct (Z.testbit dwFileAttributes n),
      (Z.testbit recognized_attributes n), (n =? 7); reflexivity.
  - intros Heq. rewrite Heq in Hrange.
    destruct Hrange as [_ Hupper]. vm_compute in Hupper. apply Hupper.
    reflexivity.
Qed.

Lemma resize_length (s : wstring) (n : nat) : List.length (resize s n) = n.
Proof.
  unfold resize. rewrite length_app, length_firstn, repeat_length. lia.
Qed.

(** When the characters written cover the string, nothing of its former
    content is left. *)
Lemma stored_prefix (s written : wstring) :
  (List.length s <= List.length written)%nat ->
  stored s written = firstn (List.length s) written.
Proof.
  intros Hle. unfold stored. rewrite firstn_app.
  replace (List.length s - List.length written)%nat with 0%nat by lia.
  apply app_nil_r.
Qed.

Lemma to_DWORD_pred (x : Z) : to_DWORD x <= to_DWORD (x - 1) + 1.
Proof.
  unfold to_DWORD.
  pose proof (Z.div_mod x (2 ^ 32)).
  pose proof (Z.div_mod (x - 1) (2 ^ 32)).
  pose proof (Z.mod_pos_bound x (2 ^ 32)).
  pose proof (Z.mod_pos_bound (x - 1) (2 ^ 32)).
  lia.
Qed.

(** The simulated system keeps the last-error value as a cell. *)
Lemma Sim_keeps_last_error : keeps_last_error Sim.os.
Proof.
  split; [reflexivity |].
  intros c w.
  destruct c; cbn -[Z.eqb Z.ltb Z.pow Z.of_nat Z.add];
    unfold Sim.query, Sim.update;
    repeat match goal with
    | |- context [match ?x with _ => _ end] =>
        destruct x eqn:?; cbn -[Z.eqb Z.ltb Z.pow Z.of_nat Z.add]
    end;
    intros Hset Hok; try discriminate; reflexivity.
Qed.

(** The expansion of [__HRESULT_FROM_WIN32], branch by branch. *)
Lemma HRESULT_FROM_WIN32_reads_tested (tested encoded : DWORD) :
  to_HRESULT tested <= 0 ->
  HRESULT_FROM_WIN32_reads tested encoded = to_HRESULT encoded.
Proof.
  intros Hle. unfold HRESULT_FROM_WIN32_reads.
  rewrite (proj2 (Z.leb_le _ _) Hle). reflexivity.
Qed.

Lemma HRESULT_FROM_WIN32_reads_encoded (tested encoded : DWORD) :
  0 < to_HRESULT tested ->
  HRESULT_FROM_WIN32_reads tested encoded
  = to_HRESULT
      (Z.lor (Z.lor (Z.land encoded 0x0000FFFF) (Z.shiftl FACILITY_WIN32 16))
             0x80000000).
Proof.
  intros Hgt. unfold HRESULT_FROM_WIN32_reads.
  rewrite (proj2 (Z.leb_gt _ _) Hgt). reflexivity.
Qed.

(** Two equal readings give the translation of the value read. *)
Lemma HRESULT_FROM_WIN32_reads_same (e : DWORD) :
  HRESULT_FROM_WIN32_reads e e = __HRESULT_FROM_WIN32 e.
Proof. reflexivity. Qed.

Section MoreRuns.

Context {World : Type} (os : OS.Handler World).

(** *** M2DeleteFile *)

(** X1.  The calls of [M2DeleteFile], error look-ups aside, come in this
    order: the open; then, unless the open failed, the attribute read and
    the unprotect write (force flag only), the delete-disposition call, and
    the restore write (force flag, failed disposition call and failure
    code only); and last the handle release. *)
Theorem M2DeleteFile_call_order (w : World) (lpFileName : LPCWSTR)
        (bForceDeleteReadOnlyFile : bool) :
  let o := run os (M2DeleteFile lpFileName bForceDeleteReadOnlyFile) w in
  steps (trace o)
  = (OpenStep
     :: (if open_failed (trace o) then []
         else (if bForceDeleteReadOnlyFile
               then [AttributeReadStep; AttributeWriteStep] else [])
              ++ [DispositionStep]
              ++ (if bForceDeleteReadOnlyFile
                     && disposition_failed (trace o)
                     && FAILED (result o)
                  then [AttributeWriteStep] else []))
     ++ [CloseStep])%list.
Proof.
  enter. unfold steps.
  destruct bForceDeleteReadOnlyFile; exec.
  all: paths os.
  all: try rewrite S_OK_succeeds.
  all: finish.
Qed.

(** X2.  In the helpers that work on files and in [M2GetWindowsDirectory],
    the error look-up is always the call right after the one that failed:
    no other system call comes between a failure and the reading of its
    last-error value. *)
Theorem error_lookups_follow_failures (w : World) (lpFileName : LPCWSTR)
        (bForceDeleteReadOnlyFile : bool) (hFile : HANDLE)
        (dwFileAttributes : DWORD) (initial : ULONGLONG)
        (WindowsFolderPath : wstring) :
  lookups_follow_failures false
    (trace (run os (M2DeleteFile lpFileName bForceDeleteReadOnlyFile) w))
  = true
  /\ lookups_follow_failures false
       (trace (run os (M2SetFileAttributes hFile dwFileAttributes) w))
     = true
  /\ lookups_follow_failures false
       (trace (run os (M2GetFileAllocationSize lpFileName initial) w))
     = true
  /\ lookups_follow_failures false
       (trace (run os (M2GetFileSize lpFileName initial) w))
     = true
  /\ lookups_follow_failures false
       (trace (run os (M2GetWindowsDirectory WindowsFolderPath) w))
     = true.
Proof.
  repeat split; enter; try destruct bForceDeleteReadOnlyFile; exec;
    paths os; finish.
Qed.

(** X3.  [M2DeleteFile] works on one handle only: every call that takes a
    handle is given the one its [CreateFileW] call returned. *)
Theorem M2DeleteFile_single_handle (w : World) (lpFileName : LPCWSTR)
        (bForceDeleteReadOnlyFile : bool) :
  let t :=
    trace (run os (M2DeleteFile lpFileName bForceDeleteReadOnlyFile) w) in
  exists hFile : HANDLE,
    collect opened_handle t = [hFile]
    /\ forall h : HANDLE, In h (collect used_handle t) -> h = hFile.
Proof.
  enter.
  destruct bForceDeleteReadOnlyFile; exec.
  all: paths os.
  all: eexists; split; [reflexivity |].
  all: cbn; intros h Hin; intuition congruence.
Qed.

(** X4.  On a system that follows the Win32 error convention,
    [M2DeleteFile] returns a success code exactly when the open and the
    delete-disposition call both succeeded, and that code is [S_OK]. *)
Theorem M2DeleteFile_succeeds_iff (w : World) (lpFileName : LPCWSTR)
        (bForceDeleteReadOnlyFile : bool) :
  OS.sets_last_error os ->
  let o := run os (M2DeleteFile lpFileName bForceDeleteReadOnlyFile) w in
  FAILED (result o) = open_failed (trace o) || disposition_failed (trace o)
  /\ (FAILED (result o) = false -> result o = S_OK).
Proof.
  intros Hos. enter.
  destruct bForceDeleteReadOnlyFile; exec.
  all: paths_with Hos os.
  all: try rewrite S_OK_succeeds.
  all: finish.
Qed.

(** X5.  When the forced deletion fails, [M2DeleteFile] has written the
    attributes twice: first the settable flags that were read, without
    read-only, then the same flags with the read-only bit as it was read.
    The restore write so gives back every settable flag of the attribute
    set that was captured.  (On a system that follows the Win32 error
    convention.) *)
Theorem M2DeleteFile_unprotect_restore_pair (w : World)
        (lpFileName : LPCWSTR) (a : DWORD) :
  OS.sets_last_error os ->
  disposition_failed (trace (run os (M2DeleteFile lpFileName true) w))
  = true ->
  pick read_attributes (trace (run os (M2DeleteFile lpFileName true) w))
  = Some a ->
  let t := trace (run os (M2DeleteFile lpFileName true) w) in
  let unprotected :=
    M2SetFileAttributes_value
      (Z.land a (to_DWORD (Z.lxor (-1) FILE_ATTRIBUTE_READONLY))) in
  let restored := M2SetFileAttributes_value a in
  applied_attributes t = [Some unprotected; Some restored]
  /\ Z.testbit unprotected 0 = false
  /\ restored = Z.lor unprotected (Z.land a FILE_ATTRIBUTE_READONLY)
  /\ Z.land restored recognized_attributes
     = Z.land a recognized_attributes.
Proof.
  intros Hos Hfailed Hread. cbv zeta.
  split; [| split; [apply unprotected_not_readonly |
            split; [apply restored_from_unprotected |
                    apply M2SetFileAttributes_value_settable]]].
  revert Hfailed Hread. enter. paths_with Hos os.
  all: intros Hfailed Hread; try discriminate.
  all: injection Hread as <-; reflexivity.
Qed.

(** X6.  When the attribute read of a forced deletion fails,
    [M2DeleteFile] goes on with [INVALID_FILE_ATTRIBUTES] as the captured
    attribute set: the unprotect write then carries every settable flag but
    read-only (hidden, system, archive, temporary, offline,
    not-content-indexed, no-scrub-data, with normal), and a restore write,
    when there is one, carries every settable flag. *)
Theorem M2DeleteFile_failed_attribute_read (w : World)
        (lpFileName : LPCWSTR) (bForceDeleteReadOnlyFile : bool) :
  attribute_read_failed
    (trace (run os (M2DeleteFile lpFileName bForceDeleteReadOnlyFile) w))
  = true ->
  let o := run os (M2DeleteFile lpFileName bForceDeleteReadOnlyFile) w in
  pick read_attributes (trace o) = Some INVALID_FILE_ATTRIBUTES
  /\ applied_attributes (before_disposition (trace o))
     = [Some (Z.lor (Z.ldiff recognized_attributes FILE_ATTRIBUTE_READONLY)
                    FILE_ATTRIBUTE_NORMAL)]
  /\ applied_attributes (after_disposition (trace o))
     = if disposition_failed (trace o) && FAILED (result o)
       then [Some (Z.lor recognized_attributes FILE_ATTRIBUTE_NORMAL)]
       else [].
Proof.
  enter. unfold attribute_read_failed, event_failed.
  destruct bForceDeleteReadOnlyFile; exec.
  all: paths os.
  all: try rewrite S_OK_succeeds.
  all: finish.
Qed.

(** *** M2SetFileAttributes and M2GetFileAttributes *)

(** X7.  [M2SetFileAttributes] issues one attribute write and no other
    call on the file.  On a system that follows the Win32 error convention
    it returns [S_OK] when the write succeeded and, when it failed, the
    translation of the last-error value read right after it, which is a
    failure code. *)
Theorem M2SetFileAttributes_result (w : World) (hFile : HANDLE)
        (dwFileAttributes : DWORD) :
  OS.sets_last_error os ->
  let o := run os (M2SetFileAttributes hFile dwFileAttributes) w in
  steps (trace o) = [AttributeWriteStep]
  /\ FAILED (result o) = attribute_write_failed (trace o)
  /\ (attribute_write_failed (trace o) = false -> result o = S_OK)
  /\ (attribute_write_failed (trace o) = true ->
      exists e : DWORD,
        hd_error (rev (trace o)) = Some (OS.GetLastError ~> e)
        /\ result o = __HRESULT_FROM_WIN32 e).
Proof.
  intros Hos. enter. unfold steps, attribute_write_failed, event_failed.
  exec. paths_with Hos os.
  all: try rewrite S_OK_succeeds.
  all: finish.
Qed.

(** X9.  [M2GetFileAttributes] issues the attribute read and nothing else,
    so the last-error value of a failed read is still there for the caller:
    when the read fails the result is [INVALID_FILE_ATTRIBUTES] and a
    [GetLastError] called next returns an error code; when it succeeds the
    result is the attribute set that was read.  (On a system that follows
    the Win32 error convention.) *)
Theorem M2GetFileAttributes_then_GetLastError (w : World) (hFile : HANDLE) :
  OS.sets_last_error os ->
  let o :=
    run os (a <- M2GetFileAttributes hFile ;;
            e <- GetLastError ;;
            ret (a, e)) w in
  steps (trace (run os (M2GetFileAttributes hFile) w)) = [AttributeReadStep]
  /\ List.length (trace (run os (M2GetFileAttributes hFile) w)) = 1%nat
  /\ pick read_attributes (trace o) = Some (fst (result o))
  /\ (attribute_read_failed (trace o) = true ->
      fst (result o) = INVALID_FILE_ATTRIBUTES
      /\ 0 < snd (result o) < 2 ^ 32).
Proof.
  intros Hos. enter. unfold steps, attribute_read_failed, event_failed.
  exec. paths_with Hos os.
  all: convention.
  all: finish.
Qed.

(** *** M2GetFileAllocationSize and M2GetFileSize *)

(** X10.  Each size query opens one handle, asks for the standard
    information only when the open succeeded, and releases that same handle
    as its last call, on every path; it issues no write of any kind, and
    every call that takes a handle is given the one that was opened. *)
Theorem size_queries_call_order (w : World) (lpFileName : LPCWSTR)
        (initial : ULONGLONG) :
  let a := trace (run os (M2GetFileAllocationSize lpFileName initial) w) in
  let s := trace (run os (M2GetFileSize lpFileName initial) w) in
  (steps a
   = (OpenStep :: (if open_failed a then [] else [SizeQueryStep])
      ++ [CloseStep])%list
   /\ exists hFile : HANDLE,
       collect opened_handle a = [hFile]
       /\ collect closed_handle a = [hFile]
       /\ forall h : HANDLE, In h (collect used_handle a) -> h = hFile)
  /\
  (steps s
   = (OpenStep :: (if open_failed s then [] else [SizeQueryStep])
      ++ [CloseStep])%list
   /\ exists hFile : HANDLE,
       collect opened_handle s = [hFile]
       /\ collect closed_handle s = [hFile]
       /\ forall h : HANDLE, In h (collect used_handle s) -> h = hFile).
Proof.
  split; enter; unfold steps; exec; paths os.
  all: split; [reflexivity |].
  all: eexists; split; [reflexivity |]; split; [reflexivity |].
  all: cbn; intros h Hin; intuition congruence.
Qed.

(** X11.  On the same file and the same system the two size queries issue
    the same calls and return the same result code; they differ only in
    the field they hand back.  The out-value is the queried signed 64-bit
    field read as unsigned: it lies below 2^64 and equals the field
    whenever the field is not negative. *)
Theorem size_queries_agree (w : World) (lpFileName : LPCWSTR)
        (initial initial' : ULONGLONG) :
  let a := run os (M2GetFileAllocationSize lpFileName initial) w in
  let s := run os (M2GetFileSize lpFileName initial') w in
  trace a = trace s
  /\ fst (result a) = fst (result s)
  /\ 0 <= snd (result a) < 2 ^ 64
  /\ 0 <= snd (result s) < 2 ^ 64
  /\ (forall StandardInfo : FILE_STANDARD_INFO,
        pick queried_standard_info (trace a) = Some StandardInfo ->
        (0 <= AllocationSize StandardInfo < 2 ^ 63 ->
         snd (result a) = AllocationSize StandardInfo)
        /\ (0 <= EndOfFile StandardInfo < 2 ^ 63 ->
            snd (result s) = EndOfFile StandardInfo)).
Proof.
  enter. paths os.
  all: repeat match goal with
       | |- _ /\ _ => split
       end; try reflexivity; try (cbn; lia).
  all: try (unfold to_ULONGLONG; apply Z.mod_pos_bound; lia).
  all: try (intros StandardInfo Hq; discriminate Hq).
  all: intros StandardInfo Hq; injection Hq as <-.
  all: split; intros Hrange; unfold to_ULONGLONG;
    rewrite Z.mod_small; try reflexivity; lia.
Qed.

(** *** M2GetWindowsDirectory *)

(** X12.  [M2GetWindowsDirectory] first asks for the length with no buffer
    and size 0, and issues at most one more directory query; that one is
    given the string and a size that is at most the size of the string plus
    one: the system is never told the buffer holds more than the string
    and its terminator. *)
Theorem M2GetWindowsDirectory_buffer_protocol (w : World)
        (WindowsFolderPath : wstring) :
  let t := trace (run os (M2GetWindowsDirectory WindowsFolderPath) w) in
  exists rest : list (option nat * UINT),
    collect directory_query t = (None, 0) :: rest
    /\ (List.length rest <= 1)%nat
    /\ forall (size : option nat) (uSize : UINT),
        In (size, uSize) rest ->
        exists n : nat, size = Some n /\ uSize <= Z.of_nat n + 1.
Proof.
  enter. paths os.
  all: eexists; split; [reflexivity |]; split; [cbn; lia |].
  all: cbn; intros size uSize Hin; try contradiction.
  all: destruct Hin as [Hin | []]; injection Hin as <- <-.
  all: eexists; split; [reflexivity |].
  all: rewrite resize_length, Z2Nat.id
    by (unfold to_DWORD; apply Z.mod_pos_bound; lia).
  all: apply to_DWORD_pred.
Qed.

(** X13.  When neither directory query fails and the filling call returns
    the size of the string, [M2GetWindowsDirectory] returns [S_OK] with a
    string of exactly the returned length; if the system wrote at least
    that many characters, the string is their prefix of that length,
    whatever the string held on entry. *)
Theorem M2GetWindowsDirectory_success (w : World)
        (WindowsFolderPath : wstring) :
  directory_query_failed
    (trace (run os (M2GetWindowsDirectory WindowsFolderPath) w)) = false ->
  size_mismatch
    (trace (run os (M2GetWindowsDirectory WindowsFolderPath) w)) = false ->
  let o := run os (M2GetWindowsDirectory WindowsFolderPath) w in
  exists (size : nat) (len : UINT) (written : wstring),
    pick filled (trace o) = Some (size, len)
    /\ pick filled_characters (trace o) = Some written
    /\ fst (result o) = S_OK
    /\ Z.of_nat (List.length (snd (result o))) = len
    /\ List.length (snd (result o)) = size
    /\ ((size <= List.length written)%nat ->
        snd (result o) = firstn size written).
Proof.
  enter. paths os.
  all: intros Hfailed Hmismatch; try discriminate.
  all: do 3 eexists.
  all: split; [reflexivity |]; split; [reflexivity |].
  all: split; [reflexivity |].
  all: rewrite ?stored_length.
  all: split; [assumption |]; split; [reflexivity |].
  all: apply stored_prefix.
Qed.

(** *** M2LoadResource *)

(** X14.  With a null descriptor [M2LoadResource] returns [E_INVALIDARG]
    without a single system call.  Otherwise its first call clears the
    last-error value and its last two calls read it, one after the other:
    the macro of line 62 evaluates [GetLastError()] twice.  The result code
    is the macro's expansion on the two readings, the first one tested and
    the second one encoded; when both readings agree it is the translation
    of the value read. *)
Theorem M2LoadResource_last_error_protocol (w : World)
        (lpResourceInfo : option M2_RESOURCE_INFO) (hModule : HMODULE)
        (lpType lpName : LPCWSTR) :
  let o := run os (M2LoadResource lpResourceInfo hModule lpType lpName) w in
  match lpResourceInfo with
  | None => result o = (E_INVALIDARG, None) /\ trace o = []
  | Some _ =>
      exists (tested encoded : DWORD) (info : M2_RESOURCE_INFO),
        hd_error (trace o) = Some (OS.SetLastError ERROR_SUCCESS ~> tt)
        /\ firstn 2 (rev (trace o))
           = [OS.GetLastError ~> encoded; OS.GetLastError ~> tested]
        /\ List.length (filter is_last_error (trace o)) = 2%nat
        /\ result o = (HRESULT_FROM_WIN32_reads tested encoded, Some info)
        /\ (encoded = tested ->
            fst (result o) = __HRESULT_FROM_WIN32 tested)
  end.
Proof.
  destruct lpResourceInfo as [info |]; [| split; reflexivity].
  enter. repeat first [answer os | macro_test | branch].
  all: repeat match goal with u : unit |- _ => destruct u end.
  all: do 3 eexists.
  all: split; [reflexivity |]; split; [reflexivity |].
  all: split; [reflexivity |].
  all: first [ rewrite HRESULT_FROM_WIN32_reads_tested by assumption
             | rewrite HRESULT_FROM_WIN32_reads_encoded by assumption ].
  all: split; [reflexivity |]; intros ->.
  all: rewrite <- HRESULT_FROM_WIN32_reads_same.
  all: first [ rewrite HRESULT_FROM_WIN32_reads_tested by assumption
             | rewrite HRESULT_FROM_WIN32_reads_encoded by assumption ].
  all: reflexivity.
Qed.

(** X15.  When the resource is not found, [M2LoadResource] asks for
    nothing more: its calls are [SetLastError], [FindResourceExW] and the
    two [GetLastError] of the macro of line 62; the descriptor comes back
    zeroed.  On a system that follows the Win32 error convention and whose
    [GetLastError] only reads, the result is a failure code. *)
Theorem M2LoadResource_not_found (w : World) (info : M2_RESOURCE_INFO)
        (hModule : HMODULE) (lpType lpName : LPCWSTR) :
  OS.sets_last_error os ->
  rereads_last_error os ->
  resource_found
    (trace (run os (M2LoadResource (Some info) hModule lpType lpName) w))
  = false ->
  let o := run os (M2LoadResource (Some info) hModule lpType lpName) w in
  (exists tested encoded : DWORD,
      trace o
      = [ OS.SetLastError ERROR_SUCCESS ~> tt;
          OS.FindResourceExW hModule lpType lpName
            (MAKELANGID LANG_NEUTRAL SUBLANG_NEUTRAL) ~> nullptr;
          OS.GetLastError ~> tested;
          OS.GetLastError ~> encoded ])
  /\ snd (result o) = Some {| Size := 0; Pointer := nullptr |}
  /\ FAILED (fst (result o)) = true.
Proof.
  intros Hos Hre. enter.
  repeat first [answer_rereading Hos Hre os | macro_test | branch].
  all: repeat match goal with u : unit |- _ => destruct u end.
  all: intros Hfound; try discriminate.
  all: convention; subst.
  all: split; [do 2 eexists; reflexivity |].
  all: split; [reflexivity |].
  all: first [apply tested_error_fails; assumption
             | apply encoded_error_fails].
Qed.

(** X16.  On a system that keeps the last-error value as a cell that
    successful calls leave alone, a run of [M2LoadResource] in which no
    call fails returns [S_OK] with the size [SizeofResource] returned and
    the pointer [LockResource] returned, both non-zero. *)
Theorem M2LoadResource_success (w : World) (info : M2_RESOURCE_INFO)
        (hModule : HMODULE) (lpType lpName : LPCWSTR) :
  keeps_last_error os ->
  existsb event_failed
    (trace (run os (M2LoadResource (Some info) hModule lpType lpName) w))
  = false ->
  let o := run os (M2LoadResource (Some info) hModule lpType lpName) w in
  exists (size : DWORD) (p : LPVOID),
    pick resource_size_answer (trace o) = Some size
    /\ pick locked_pointer (trace o) = Some p
    /\ result o = (S_OK, Some {| Size := size; Pointer := p |})
    /\ size <> 0
    /\ p <> nullptr.
Proof.
  intros [Hset Hkeep]. enter. unfold event_failed.
  pose proof (Hset ERROR_SUCCESS w) as Hcleared.
  remember (os (OS.SetLastError ERROR_SUCCESS) w) as cleared eqn:E in *.
  destruct cleared as [[] w0]; clear E; exec.
  repeat first
    [ answer_noting os
        ltac:(fun c w' => let K := fresh "K" in
                          pose proof (Hkeep c w') as K)
    | macro_test
    | branch ].
  all: intros Hnone; try discriminate Hnone.
  all: repeat match goal with
       | K : false = false -> _ |- _ => specialize (K eq_refl)
       | K : true = false -> _ |- _ => clear K
       | K : (?a =? ?b) = false -> _, H : ?a <> ?b |- _ =>
           specialize (K (proj2 (Z.eqb_neq a b) H))
       end.
  all: clear Hset Hkeep.
  all: match goal with
       | T : to_HRESULT ?x <= 0 |- _ =>
           assert (x = to_DWORD ERROR_SUCCESS :> DWORD) by congruence
       | T : 0 < to_HRESULT ?x |- _ =>
           let Hx := fresh "Hx" in
           assert (Hx : x = to_DWORD ERROR_SUCCESS :> DWORD) by congruence;
           rewrite Hx in T; vm_compute in T; discriminate T
       end.
  all: do 2 eexists.
  all: split; [reflexivity |]; split; [reflexivity |].
  all: split; [| split; congruence].
  all: match goal with
       | |- (to_HRESULT ?y, _) = _ =>
           replace y with (to_DWORD ERROR_SUCCESS) by congruence
       end.
  all: reflexivity.
Qed.

End MoreRuns.

(** ** Instances of the further properties *)

Lemma M2DeleteFile_succeeds_iff_witness :
  OS.sets_last_error Sim.os
  /\ (let o := run Sim.os (M2DeleteFile "C:\data\report.txt"%string true)
                 Sim.w0 in
      FAILED (result o) = false /\ result o = S_OK)
  /\ (let o := run Sim.os (M2DeleteFile "C:\data\report.txt"%string false)
                 Sim.w0 in
      FAILED (result o) = open_failed (trace o) || disposition_failed (trace o)
      /\ disposition_failed (trace o) = true).
Proof.
  split; [exact Sim_sets_last_error |].
  pose proof (M2DeleteFile_succeeds_iff Sim.os Sim.w0
                "C:\data\report.txt"%string true Sim_sets_last_error) as Ht.
  pose proof (M2DeleteFile_succeeds_iff Sim.os Sim.w0
                "C:\data\report.txt"%string false Sim_sets_last_error) as Hf.
  cbv zeta in *.
  split.
  - split; [reflexivity | exact (proj2 Ht eq_refl)].
  - split; [exact (proj1 Hf) | reflexivity].
Defined.

Lemma M2DeleteFile_unprotect_restore_pair_witness :
  OS.sets_last_error Sim.os
  /\ disposition_failed
       (trace (run Sim.os (M2DeleteFile "C:\data\report.txt"%string true)
                 Sim.w_in_use)) = true
  /\ pick read_attributes
       (trace (run Sim.os (M2DeleteFile "C:\data\report.txt"%string true)
                 Sim.w_in_use)) = Some 0x21
  /\ applied_attributes
       (trace (run Sim.os (M2DeleteFile "C:\data\report.txt"%string true)
                 Sim.w_in_use))
     = [Some (M2SetFileAttributes_value
                (Z.land 0x21
                   (to_DWORD (Z.lxor (-1) FILE_ATTRIBUTE_READONLY))));
        Some (M2SetFileAttributes_value 0x21)].
Proof.
  split; [exact Sim_sets_last_error |].
  split; [reflexivity |]. split; [reflexivity |].
  exact (proj1 (M2DeleteFile_unprotect_restore_pair Sim.os Sim.w_in_use
                  "C:\data\report.txt"%string 0x21 Sim_sets_last_error
                  eq_refl eq_refl)).
Defined.

Lemma M2DeleteFile_failed_attribute_read_witness :
  attribute_read_failed
    (trace (run os_unreadable (M2DeleteFile "C:\data\report.txt"%string true)
              Sim.w0)) = true
  /\ applied_attributes
       (before_disposition
          (trace (run os_unreadable
                    (M2DeleteFile "C:\data\report.txt"%string true) Sim.w0)))
     = [Some (Z.lor (Z.ldiff recognized_attributes FILE_ATTRIBUTE_READONLY)
                    FILE_ATTRIBUTE_NORMAL)]
  /\ Sim.attributes
       (world (run os_unreadable
                 (M2DeleteFile "C:\data\report.txt"%string true) Sim.w0))
     = Z.ldiff recognized_attributes FILE_ATTRIBUTE_READONLY.
Proof.
  split; [reflexivity |].
  split; [| reflexivity].
  exact (proj1 (proj2 (M2DeleteFile_failed_attribute_read os_unreadable
                         Sim.w0 "C:\data\report.txt"%string true eq_refl))).
Defined.

Lemma M2SetFileAttributes_result_witness :
  OS.sets_last_error Sim.os
  /\ (let o := run Sim.os
                 (M2SetFileAttributes Sim.the_handle FILE_ATTRIBUTE_HIDDEN)
                 Sim.w_frozen in
      attribute_write_failed (trace o) = true
      /\ FAILED (result o) = attribute_write_failed (trace o))
  /\ (let o := run Sim.os
                 (M2SetFileAttributes Sim.the_handle FILE_ATTRIBUTE_HIDDEN)
                 Sim.w0 in
      attribute_write_failed (trace o) = false /\ result o = S_OK).
Proof.
  split; [exact Sim_sets_last_error |].
  pose proof (M2SetFileAttributes_result Sim.os Sim.w_frozen Sim.the_handle
                FILE_ATTRIBUTE_HIDDEN Sim_sets_last_error) as Hfrozen.
  pose proof (M2SetFileAttributes_result Sim.os Sim.w0 Sim.the_handle
                FILE_ATTRIBUTE_HIDDEN Sim_sets_last_error) as Hfree.
  cbv zeta in *.
  split.
  - split; [reflexivity | exact (proj1 (proj2 Hfrozen))].
  - split; [reflexivity | exact (proj1 (proj2 (proj2 Hfree)) eq_refl)].
Defined.

Lemma M2GetFileAttributes_then_GetLastError_witness :
  OS.sets_last_error Sim.os
  /\ (let o :=
        run Sim.os (a <- M2GetFileAttributes nullptr ;;
                    e <- GetLastError ;;
                    ret (a, e)) Sim.w0 in
      attribute_read_failed (trace o) = true
      /\ fst (result o) = INVALID_FILE_ATTRIBUTES
      /\ 0 < snd (result o) < 2 ^ 32).
Proof.
  split; [exact Sim_sets_last_error |].
  pose proof (M2GetFileAttributes_then_GetLastError Sim.os Sim.w0 nullptr
                Sim_sets_last_error) as H.
  cbv zeta in *.
  split; [reflexivity |].
  exact (proj2 (proj2 (proj2 H)) eq_refl).
Defined.

Lemma M2GetWindowsDirectory_success_witness :
  let o := run Sim.os (M2GetWindowsDirectory [1; 2]) Sim.w0 in
  directory_query_failed (trace o) = false
  /\ size_mismatch (trace o) = false
  /\ exists (size : nat) (len : UINT) (written : wstring),
      pick filled (trace o) = Some (size, len)
      /\ pick filled_characters (trace o) = Some written
      /\ fst (result o) = S_OK
      /\ Z.of_nat (List.length (snd (result o))) = len
      /\ List.length (snd (result o)) = size
      /\ ((size <= List.length written)%nat ->
          snd (result o) = firstn size written).
Proof.
  cbv zeta.
  split; [reflexivity |]. split; [reflexivity |].
  exact (M2GetWindowsDirectory_success Sim.os Sim.w0 [1; 2] eq_refl eq_refl).
Defined.

Lemma M2LoadResource_not_found_witness :
  OS.sets_last_error Sim.os
  /\ rereads_last_error Sim.os
  /\ (let o := run Sim.os
                 (M2LoadResource (Some {| Size := 9; Pointer := 9 |}) 0
                    "RT_RCDATA"%string "PAYLOAD"%string)
                 Sim.w_missing in
      resource_found (trace o) = false
      /\ List.length (trace o) = 4%nat
      /\ snd (result o) = Some {| Size := 0; Pointer := nullptr |}
      /\ FAILED (fst (result o)) = true).
Proof.
  split; [exact Sim_sets_last_error |].
  split; [exact Sim_rereads_last_error |].
  pose proof (M2LoadResource_not_found Sim.os Sim.w_missing
                {| Size := 9; Pointer := 9 |} 0
                "RT_RCDATA"%string "PAYLOAD"%string
                Sim_sets_last_error Sim_rereads_last_error eq_refl) as H.
  cbv zeta in *.
  split; [reflexivity |]. split; [reflexivity |]. exact (proj2 H).
Defined.

Lemma M2LoadResource_success_witness :
  keeps_last_error Sim.os
  /\ (let o := run Sim.os
                 (M2LoadResource (Some {| Size := 9; Pointer := 9 |}) 0
                    "RT_RCDATA"%string "PAYLOAD"%string)
                 Sim.w0 in
      existsb event_failed (trace o) = false
      /\ exists (size : DWORD) (p : LPVOID),
          pick resource_size_answer (trace o) = Some size
          /\ pick locked_pointer (trace o) = Some p
          /\ result o = (S_OK, Some {| Size := size; Pointer := p |})
          /\ size <> 0
          /\ p <> nullptr).
Proof.
  split; [exact Sim_keeps_last_error |].
  cbv zeta. split; [reflexivity |].
  exact (M2LoadResource_success Sim.os Sim.w0 {| Size := 9; Pointer := 9 |} 0
           "RT_RCDATA"%string "PAYLOAD"%string Sim_keeps_last_error eq_refl).
Defined.
